(** * bgmcli: the session-and-synchronisation engine of [bgmcli/api]

    A shallow embedding of [bgmcli/api/utils.py] and
    [bgmcli/api/session.py].  Python objects live in a store and are
    referred to by address, so that aliasing (an episode collection
    pointing at its subject collection, which lists it in turn) is
    explicit.  The remote service is a script of responses consumed in
    order, every request that leaves the client is appended to a log. *)

From Stdlib Require Import ZArith List String Ascii Bool Lia DecimalString.
From stdpp Require Import base option list gmap strings.
Import ListNotations.

(** ** Python values used by the engine *)

(** The exceptions the engine raises or lets through.  [DanglingRef] is
    not a Python exception: it is the outcome of following an address
    that holds no object, which a Python heap cannot contain. *)
Inductive exn :=
| NotLoggedInError | LoginFailedError | RequestFailedError
| TypeError | AttributeError | ValueError | KeyError | IndexError
| ConnectionError | DanglingRef.

Inductive outcome (A : Type) :=
| Return (a : A)
| Raise (e : exn).
Arguments Return {A} a.
Arguments Raise {A} e.

Definition addr := nat.

(** The double quote, kept out of string literals. *)
Definition dq : string := String "034"%char EmptyString.

(** [str(n)] for an integer *)
Definition str (z : Z) : string := NilEmpty.string_of_int (Z.to_int z).

(** [s.split(sep)[-1]] (and [s.rsplit(sep)[-1]]): what follows the last
    separator, the whole string when there is none. *)
Fixpoint last_segment_aux (sep : ascii) (s acc : string) : string :=
  match s with
  | EmptyString => acc
  | String c s' =>
      if Ascii.eqb c sep then last_segment_aux sep s' EmptyString
      else last_segment_aux sep s' (acc +:+ String c EmptyString)
  end.

Definition last_segment (sep : ascii) (s : string) : string :=
  last_segment_aux sep s EmptyString.

(** [sep.join(l)] *)
Definition join (sep : string) (l : list string) : string := String.concat sep l.

(** Truth value of an optional integer and of an optional string:
    [None], [0] and the empty string are false. *)
Definition truthy_int (o : option Z) : bool :=
  match o with Some z => negb (z =? 0)%Z | None => false end.

Definition truthy_str (o : option string) : bool :=
  match o with Some s => negb (String.eqb s EmptyString) | None => false end.

(** ** Transport: requests and responses *)

Inductive http_method := GET | POST.

Record request := mkRequest {
  rq_method : http_method;
  rq_url : string;
  rq_data : list (string * string)
}.

(** A response of the [requests] library: [text] decodes the body under
    the response's current encoding, which the client may reassign. *)
Record response := mkResponse {
  status_code : Z;
  encoding : option string;
  text_as : option string -> string
}.

Definition text (r : response) : string := text_as r (encoding r).

Definition set_encoding (e : string) (r : response) : response :=
  {| status_code := status_code r; encoding := Some e; text_as := text_as r |}.

(** ** External libraries

    [bs4] and the parts of Python's [re] and [int] the code calls are
    taken as interfaces. *)
Class Bs4 := {
  node : Type;
  BeautifulSoup : string -> node;          (* BeautifulSoup(html, 'html.parser') *)
  find_id : node -> string -> option node; (* n.find(id=...) *)
  find_class : node -> string -> option node;   (* n.find(class_=...) *)
  find_tag : node -> string -> option node;     (* n.a *)
  find_all_class : node -> string -> list node; (* n.find_all(class_=...) *)
  find_all_tag : node -> string -> list node;   (* n.find_all('li') *)
  attr : node -> string -> option string;       (* n[...] *)
  node_text : node -> string                    (* n.text *)
}.

Class PyLib := {
  py_int : string -> option Z;                  (* int(s), None for ValueError *)
  re_search : string -> string -> option string (* re.search(p, s): group 1 *)
}.

(** ** Entities *)

Record BangumiSubject := mkSubject {
  sub_id_ : string;
  sub_title : string;
  sub_ch_title : string
}.

Record BangumiEpisode := mkEpisode {
  ep_id_ : string
}.

Record BangumiSubjectCollection := mkSubColl {
  sc_subject : BangumiSubject;
  sc_c_status : option Z;
  sc_rating : option Z;
  sc_tags : list string;
  sc_comment : string;
  sc_n_watched_eps : option Z;
  sc_ep_collections : list addr;
  sc_session : option nat
}.

Record BangumiEpisodeCollection := mkEpColl {
  ec_episode : BangumiEpisode;
  ec_c_status : option string;
  ec_sub_collection : option addr;
  ec_session : option nat
}.

Record BangumiDummySubjectCollection := mkDummy {
  dm_subject : BangumiSubject;
  dm_c_status : Z;
  dm_session : option nat
}.

(** The argument of the collection methods: Python passes any object. *)
Inductive collection :=
| SubColl (a : addr)
| EpColl (a : addr)
| OtherObject.

(** ** The session object, the store and the wire *)

Record world := mkWorld {
  session_id : nat;
  _logged_in : bool;
  _base_url : string;
  _email : string;
  _gh : string;
  _user_id : string;
  closed : bool;
  inbox : list response;
  sent : list request;
  sub_colls : gmap addr BangumiSubjectCollection;
  ep_colls : gmap addr BangumiEpisodeCollection
}.

Definition with_logged_in (b : bool) (w : world) : world :=
  mkWorld (session_id w) b (_base_url w) (_email w) (_gh w) (_user_id w)
          (closed w) (inbox w) (sent w) (sub_colls w) (ep_colls w).

Definition with_gh (g : string) (w : world) : world :=
  mkWorld (session_id w) (_logged_in w) (_base_url w) (_email w) g (_user_id w)
          (closed w) (inbox w) (sent w) (sub_colls w) (ep_colls w).

Definition with_user_id (u : string) (w : world) : world :=
  mkWorld (session_id w) (_logged_in w) (_base_url w) (_email w) (_gh w) u
          (closed w) (inbox w) (sent w) (sub_colls w) (ep_colls w).

Definition with_closed (b : bool) (w : world) : world :=
  mkWorld (session_id w) (_logged_in w) (_base_url w) (_email w) (_gh w) (_user_id w)
          b (inbox w) (sent w) (sub_colls w) (ep_colls w).

Definition with_wire (i : list response) (s : list request) (w : world) : world :=
  mkWorld (session_id w) (_logged_in w) (_base_url w) (_email w) (_gh w) (_user_id w)
          (closed w) i s (sub_colls w) (ep_colls w).

Definition with_sub_colls (m : gmap addr BangumiSubjectCollection) (w : world) : world :=
  mkWorld (session_id w) (_logged_in w) (_base_url w) (_email w) (_gh w) (_user_id w)
          (closed w) (inbox w) (sent w) m (ep_colls w).

Definition with_ep_colls (m : gmap addr BangumiEpisodeCollection) (w : world) : world :=
  mkWorld (session_id w) (_logged_in w) (_base_url w) (_email w) (_gh w) (_user_id w)
          (closed w) (inbox w) (sent w) (sub_colls w) m.

(** ** The monad of the engine: state, and exceptions that keep the state *)

Definition M (A : Type) : Type := world -> outcome A * world.

Definition ret {A} (a : A) : M A := fun w => (Return a, w).

Definition raise {A} (e : exn) : M A := fun w => (Raise e, w).

Definition bind {A B} (m : M A) (k : A -> M B) : M B :=
  fun w => match m w with
           | (Return a, w') => k a w'
           | (Raise e, w') => (Raise e, w')
           end.

Definition lift {A} (o : outcome A) : M A := fun w => (o, w).

Definition gets {A} (f : world -> A) : M A := fun w => (Return (f w), w).

Definition modify (f : world -> world) : M unit := fun w => (Return tt, f w).

Notation "'let*' x ':=' m 'in' k" := (bind m (fun x => k))
  (at level 10, x name, m at level 100, k at level 200, only parsing).

(** Sequencing of pure computations that may raise. *)
Definition obind {A B} (o : outcome A) (k : A -> outcome B) : outcome B :=
  match o with
  | Return a => k a
  | Raise e => Raise e
  end.

(** A list comprehension whose body may raise: left to right, the first
    exception wins. *)
Fixpoint omap {A B} (f : A -> outcome B) (l : list A) : outcome (list B) :=
  match l with
  | [] => Return []
  | x :: l' => obind (f x) (fun y => obind (omap f l') (fun ys => Return (y :: ys)))
  end.

(** [needle in hay] for strings *)
Fixpoint contains (needle hay : string) : bool :=
  String.prefix needle hay ||
  match hay with
  | EmptyString => false
  | String _ hay' => contains needle hay'
  end.

(** [max(l)] of a list of integers; Python raises ValueError on []. *)
Definition py_max (l : list Z) : outcome Z :=
  match l with
  | [] => Raise ValueError
  | x :: l' => Return (fold_left Z.max l' x)
  end.

(** ** Factories and constants of [element.py] and [collection.py] *)

(** Modelled from the spec: [bgmcli/api/element.py] and
    [bgmcli/api/collection.py] are not among the sources.  Their
    factories (section 3, Lifecycle: entities are created by the
    extractor-fed factory paths, from a document or from a known parent
    plus a document) are taken as functions from documents to entity
    values that may raise, and the two [_VALID_C_STATUS] tuples (the
    legal enumeration of each collection kind, section 4.2) as lists. *)
Class Collaborators `{Bs4} := {
  SUB_VALID_C_STATUS : list Z;
  EP_VALID_C_STATUS : list string;
  subject_from_html : string -> string -> outcome BangumiSubject;
  episode_from_html : string -> string -> outcome BangumiEpisode;
  eps_from_html : string -> outcome (list BangumiEpisode);
  sub_coll_from_html :
    string -> string ->
    outcome (BangumiSubjectCollection * list BangumiEpisodeCollection);
  sub_coll_from_html_with_subject :
    BangumiSubject -> string -> string ->
    outcome (BangumiSubjectCollection * list BangumiEpisodeCollection);
  ep_coll_from_html : string -> string -> outcome BangumiEpisodeCollection;
  ep_coll_from_html_with_ep :
    BangumiEpisode -> string -> outcome BangumiEpisodeCollection;
  ep_colls_for_sub_from_html :
    BangumiSubject -> string -> outcome (list BangumiEpisodeCollection);
  dummy_from_soup_for_li : node -> Z -> outcome BangumiDummySubjectCollection
}.

(** ** Field assignment on entities *)

Definition sc_with_c_status (c : option Z) (sc : BangumiSubjectCollection) :=
  mkSubColl (sc_subject sc) c (sc_rating sc) (sc_tags sc) (sc_comment sc)
            (sc_n_watched_eps sc) (sc_ep_collections sc) (sc_session sc).

Definition sc_with_n_watched_eps (n : option Z) (sc : BangumiSubjectCollection) :=
  mkSubColl (sc_subject sc) (sc_c_status sc) (sc_rating sc) (sc_tags sc)
            (sc_comment sc) n (sc_ep_collections sc) (sc_session sc).

Definition sc_with_ep_collections (l : list addr) (sc : BangumiSubjectCollection) :=
  mkSubColl (sc_subject sc) (sc_c_status sc) (sc_rating sc) (sc_tags sc)
            (sc_comment sc) (sc_n_watched_eps sc) l (sc_session sc).

Definition sc_with_session (s : option nat) (sc : BangumiSubjectCollection) :=
  mkSubColl (sc_subject sc) (sc_c_status sc) (sc_rating sc) (sc_tags sc)
            (sc_comment sc) (sc_n_watched_eps sc) (sc_ep_collections sc) s.

Definition ec_with_c_status (c : option string) (ec : BangumiEpisodeCollection) :=
  mkEpColl (ec_episode ec) c (ec_sub_collection ec) (ec_session ec).

Definition ec_with_sub_collection (s : option addr) (ec : BangumiEpisodeCollection) :=
  mkEpColl (ec_episode ec) (ec_c_status ec) s (ec_session ec).

Definition ec_with_session (s : option nat) (ec : BangumiEpisodeCollection) :=
  mkEpColl (ec_episode ec) (ec_c_status ec) (ec_sub_collection ec) s.

Definition dm_with_session (s : option nat) (d : BangumiDummySubjectCollection) :=
  mkDummy (dm_subject d) (dm_c_status d) s.

(** ** Store access *)

Definition deref_sub (a : addr) : M BangumiSubjectCollection :=
  fun w => match sub_colls w !! a with
           | Some sc => (Return sc, w)
           | None => (Raise DanglingRef, w)
           end.

Definition deref_ep (a : addr) : M BangumiEpisodeCollection :=
  fun w => match ep_colls w !! a with
           | Some ec => (Return ec, w)
           | None => (Raise DanglingRef, w)
           end.

(** [obj.field = v] on a stored object *)
Definition update_sub (a : addr)
    (f : BangumiSubjectCollection -> BangumiSubjectCollection) : M unit :=
  let* sc := deref_sub a in
  modify (fun w => with_sub_colls (<[a := f sc]> (sub_colls w)) w).

Definition update_ep (a : addr)
    (f : BangumiEpisodeCollection -> BangumiEpisodeCollection) : M unit :=
  let* ec := deref_ep a in
  modify (fun w => with_ep_colls (<[a := f ec]> (ep_colls w)) w).

(** A [for] loop over a list, in order. *)
Fixpoint for_each {A} (l : list A) (body : A -> M unit) : M unit :=
  match l with
  | [] => ret tt
  | x :: l' => let* _ := body x in for_each l' body
  end.

(** Construction of new objects at addresses not in use. *)
Definition alloc_sub (sc : BangumiSubjectCollection) : M addr :=
  fun w => let a := fresh (dom (sub_colls w)) in
           (Return a, with_sub_colls (<[a := sc]> (sub_colls w)) w).

Definition alloc_ep (ec : BangumiEpisodeCollection) : M addr :=
  fun w => let a := fresh (dom (ep_colls w)) in
           (Return a, with_ep_colls (<[a := ec]> (ep_colls w)) w).

Fixpoint alloc_eps (l : list BangumiEpisodeCollection) : M (list addr) :=
  match l with
  | [] => ret []
  | ec :: l' => let* a := alloc_ep ec in let* r := alloc_eps l' in ret (a :: r)
  end.

(** Modelled from the spec: how the subject-collection factories of
    [collection.py] (not among the sources) link what they build.  By
    section 3 a subject collection holds the ordered sequence of its
    episode collections and each of these refers back to it. *)
Definition alloc_sub_coll
    (p : BangumiSubjectCollection * list BangumiEpisodeCollection) : M addr :=
  let* a := alloc_sub (sc_with_ep_collections [] (fst p)) in
  let* eas := alloc_eps (map (ec_with_sub_collection (Some a)) (snd p)) in
  let* _ := update_sub a (sc_with_ep_collections eas) in
  ret a.

Section Engine.
Context `{bs : Bs4} `{py : PyLib} `{co : !Collaborators}.

(** ** [bgmcli/api/utils.py] *)

(** The bare [except] turns every failure into the empty string. *)
Definition get_encoding_from_html (html : string) : string :=
  match re_search ("<meta charset=" +:+ dq +:+ "(.+)" +:+ dq) html with
  | Some e => e
  | None => EmptyString
  end.

(** [soup.find(class_='idBadgerNeue').find(class_='avatar')['href']
    .split('/')[-1]]: calling [find] on None is an AttributeError,
    subscripting None a TypeError, a missing attribute a KeyError. *)
Definition get_user_id_from_soup (soup : node) : outcome string :=
  match find_class soup "idBadgerNeue" with
  | None => Raise AttributeError
  | Some badge =>
      match find_class badge "avatar" with
      | None => Raise TypeError
      | Some avatar =>
          match attr avatar "href" with
          | None => Raise KeyError
          | Some href => Return (last_segment "/" href)
          end
      end
  end.

Definition get_user_id_from_html (html : string) : outcome string :=
  get_user_id_from_soup (BeautifulSoup html).

(** Modelled from the spec: [==] on episode collections.  [collection.py]
    is not among the sources; the walk of section 4.2 looks for "the
    target" itself, so equality is identity of objects (also what Python
    does for a class that defines no [__eq__]). *)
Definition ep_coll_eq (a b : addr) : bool := Nat.eqb a b.

(** The loop of [get_ep_colls_up_to_this]: append, then break on the
    target. *)
Fixpoint up_to_this (target : addr) (l : list addr) : list addr :=
  match l with
  | [] => []
  | ep_c :: l' =>
      ep_c :: (if ep_coll_eq ep_c target then [] else up_to_this target l')
  end.

Definition get_ep_colls_up_to_this (ep_coll : addr) : M (list addr) :=
  let* ec := deref_ep ep_coll in
  match ec_sub_collection ec with
  | None => raise AttributeError
  | Some s =>
      let* sub_coll := deref_sub s in
      ret (up_to_this ep_coll (sc_ep_collections sub_coll))
  end.

(** Only TypeError is caught. *)
Definition check_response (r : response) : outcome bool :=
  if negb (status_code r =? 200)%Z then Return false
  else match get_user_id_from_html (text r) with
       | Return _ => Return true
       | Raise TypeError => Return false
       | Raise e => Raise e
       end.

(** [int(soup.find(id='watchedeps')['value'])] *)
Definition get_n_watched_eps_from_soup (soup : node) : outcome Z :=
  match find_id soup "watchedeps" with
  | None => Raise TypeError
  | Some inp =>
      match attr inp "value" with
      | None => Raise KeyError
      | Some v =>
          match py_int v with
          | None => Raise ValueError
          | Some n => Return n
          end
      end
  end.

Definition int_of (s : string) : outcome Z :=
  match py_int s with
  | Some n => Return n
  | None => Raise ValueError
  end.

Definition get_n_pages (html : string) : outcome Z :=
  let soup := BeautifulSoup html in
  match find_id soup "multipage" with
  | None => Raise AttributeError
  | Some mp =>
      match find_all_class mp "p" with
      | [] => Return 1%Z
      | pages =>
          match find_class mp "p_cur" with
          | None => Raise AttributeError
          | Some cur =>
              obind (int_of (node_text cur)) (fun cur_page =>
              obind (omap (fun p => match attr p "href" with
                                    | None => Raise KeyError
                                    | Some h => int_of (last_segment "=" h)
                                    end) pages) (fun avail_pages =>
              py_max (avail_pages ++ [cur_page])))
          end
      end
  end.

(** ** [bgmcli/api/session.py] *)

(** [requests.Session.get] and [.post]: the request goes out and the
    next scripted response comes back; with nothing left to answer the
    transport itself fails. *)
Definition transport (rq : request) : M response :=
  fun w => match inbox w with
           | [] => (Raise ConnectionError, with_wire [] (sent w ++ [rq]) w)
           | r :: rest => (Return r, with_wire rest (sent w ++ [rq]) w)
           end.

Definition require_login {A} (method : M A) : M A :=
  fun w => if negb (_logged_in w) then (Raise NotLoggedInError, w)
           else method w.

Definition _get (url : string) : M response :=
  require_login (transport (mkRequest GET url [])).

Definition _post (url : string) (data : list (string * string)) : M response :=
  require_login (transport (mkRequest POST url data)).

Definition logout : M unit :=
  require_login (
    let* _ := modify (with_logged_in false) in
    let* base := gets _base_url in
    let* gh := gets _gh in
    let* _ := transport (mkRequest GET (base +:+ "/logout/" +:+ gh) []) in
    modify (with_closed true)).

Definition _get_html_for_ep (ep_id : string) : M string :=
  let* base := gets _base_url in
  let* response := _get (base +:+ "/ep/" +:+ ep_id) in
  ret (text (set_encoding (get_encoding_from_html (text response)) response)).

Definition _get_sub_id_for_ep (ep_id : string) : M string :=
  let* html := _get_html_for_ep ep_id in
  match find_id (BeautifulSoup html) "subject_inner_info" with
  | None => raise AttributeError
  | Some info =>
      match find_tag info "a" with
      | None => raise TypeError
      | Some a =>
          match attr a "href" with
          | None => raise KeyError
          | Some href => ret (last_segment "/" href)
          end
      end
  end.

(** The page as the [_get_html_for_*] methods return it: the text of the
    response once its encoding is the one its own markup declares. *)
Definition html_of (r : response) : string :=
  text (set_encoding (get_encoding_from_html (text r)) r).

Definition _get_html_for_subject_main (sub_id : string) : M string :=
  let* base := gets _base_url in
  let* response := _get (base +:+ "/subject/" +:+ sub_id) in
  ret (html_of response).

Definition _get_html_for_subject_eps (sub_id : string) : M string :=
  let* base := gets _base_url in
  let* response := _get (base +:+ "/subject/" +:+ sub_id +:+ "/ep") in
  ret (html_of response).

Definition _remove_sub_collection (sub_id : string) : M bool :=
  let* base := gets _base_url in
  let* gh := gets _gh in
  let* response := _get (base +:+ "/subject/" +:+ sub_id +:+ "/remove?gh=" +:+ gh) in
  lift (check_response response).

Definition _remove_ep_collection (ep_id : string) : M bool :=
  let* base := gets _base_url in
  let* gh := gets _gh in
  let* response :=
    _get (base +:+ "/subject/ep/" +:+ ep_id +:+ "/status/remove?gh=" +:+ gh) in
  lift (check_response response).

Definition _set_n_watched_eps (sub_id : string) (n_watched_eps : Z) : M bool :=
  let* base := gets _base_url in
  let* response :=
    _post (base +:+ "/subject/set/watched/" +:+ sub_id)
          [("referer", "subject"); ("submit", "更新");
           ("watchedeps", str n_watched_eps)] in
  lift (check_response response).

(** [a is b] on values that are an object or None *)
Definition is_same (a b : option addr) : bool :=
  match a, b with
  | None, None => true
  | Some x, Some y => Nat.eqb x y
  | _, _ => false
  end.

Fixpoint map_M {A B} (f : A -> M B) (l : list A) : M (list B) :=
  match l with
  | [] => ret []
  | x :: l' => let* y := f x in let* ys := map_M f l' in ret (y :: ys)
  end.

(** The body the batch write must have for the write to count. *)
Definition ack_body : string :=
  "{" +:+ dq +:+ "status" +:+ dq +:+ ":" +:+ dq +:+ "ok" +:+ dq +:+ "}".

Definition acknowledged (r : response) : bool :=
  (status_code r =? 200)%Z && String.eqb (text r) ack_body.

(** Modelled from the spec: the [c_status] property of [collection.py]
    (not among the sources).  Reading it gives the stored [_c_status]
    and assigning to it stores the value, as section 3 makes the status
    a mutable field. *)
Definition set_ep_c_status (a : addr) (c : string) : M unit :=
  update_ep a (ec_with_c_status (Some c)).

Definition _set_watched_eps_in_sub (ep_colls : list addr) : M bool :=
  match ep_colls with
  | [] => raise IndexError
  | first :: _ =>
      let* ec0 := deref_ep first in
      let sub_coll := ec_sub_collection ec0 in
      let* _ := for_each ep_colls (fun a =>
                  let* ec := deref_ep a in
                  if negb (is_same (ec_sub_collection ec) sub_coll)
                  then raise ValueError else ret tt) in
      let* ecs := map_M deref_ep ep_colls in
      let ep_ids := map (fun ec => ep_id_ (ec_episode ec)) ecs in
      let base_ep_id := List.last ep_ids EmptyString in
      let data := [("ep_id", join "," ep_ids)] in
      let* base := gets _base_url in
      let* gh := gets _gh in
      let set_url := base +:+ "/subject/ep/" +:+ base_ep_id +:+
                     "/status/watched?gh=" +:+ gh +:+ "&ajax=1" in
      let* response := _post set_url data in
      if acknowledged response then
        match sub_coll with
        | None => raise AttributeError
        | Some s =>
            let* sc := deref_sub s in
            let* html := _get_html_for_subject_main (sub_id_ (sc_subject sc)) in
            let* n := lift (get_n_watched_eps_from_soup (BeautifulSoup html)) in
            let* _ := update_sub s (sc_with_n_watched_eps (Some n)) in
            let* _ := for_each ep_colls (fun a => set_ep_c_status a "watched") in
            ret true
        end
      else ret false
  end.

(** [if not sub_coll.c_status] is a truth test: None and 0 both fail it
    (the [None] branch of the [match] after it is never reached). *)
Definition set_sub_collection (c : collection) : M bool :=
  match c with
  | SubColl a =>
      let* sub_coll := deref_sub a in
      if negb (truthy_int (sc_c_status sub_coll)) then raise AttributeError
      else
        match sc_c_status sub_coll with
        | None => raise AttributeError
        | Some c_status =>
            if negb (existsb (Z.eqb c_status) SUB_VALID_C_STATUS)
            then raise ValueError
            else
              let data :=
                [("referer", "subject"); ("interest", str c_status);
                 ("rating", if truthy_int (sc_rating sub_coll)
                            then match sc_rating sub_coll with
                                 | Some r => str r
                                 | None => EmptyString
                                 end
                            else EmptyString);
                 ("tags", join " " (sc_tags sub_coll));
                 ("comment", sc_comment sub_coll); ("update", "保存")] in
              let* base := gets _base_url in
              let* gh := gets _gh in
              let set_coll_url :=
                base +:+ "/subject/" +:+ sub_id_ (sc_subject sub_coll) +:+
                "/interest/update?gh=" +:+ gh in
              let* response := _post set_coll_url data in
              lift (check_response response)
        end
  | _ => raise TypeError
  end.

(** In the single-episode branch [if ep_coll.sub_collection:] holds for
    any subject collection: an object is true. *)
Definition set_ep_collection (c : collection) : M bool :=
  match c with
  | EpColl a =>
      let* ep_coll := deref_ep a in
      if negb (truthy_str (ec_c_status ep_coll)) then raise AttributeError
      else
        match ec_c_status ep_coll with
        | None => raise AttributeError
        | Some c_status =>
            if negb (existsb (String.eqb c_status) EP_VALID_C_STATUS)
            then raise ValueError
            else if String.eqb c_status "watched_up_to" then
              match ec_sub_collection ep_coll with
              | None => raise AttributeError
              | Some _ =>
                  let* ep_colls := get_ep_colls_up_to_this a in
                  _set_watched_eps_in_sub ep_colls
              end
            else
              let* base := gets _base_url in
              let* gh := gets _gh in
              let set_url :=
                base +:+ "/subject/ep/" +:+ ep_id_ (ec_episode ep_coll) +:+
                "/status/" +:+ c_status +:+ "?gh=" +:+ gh in
              let* response := _get set_url in
              let* _ :=
                match ec_sub_collection ep_coll with
                | Some s =>
                    let* n_watched_eps :=
                      lift (get_n_watched_eps_from_soup
                              (BeautifulSoup (text response))) in
                    update_sub s (sc_with_n_watched_eps (Some n_watched_eps))
                | None => ret tt
                end in
              lift (check_response response)
        end
  | _ => raise TypeError
  end.

Definition set_collection (c : collection) : M bool :=
  match c with
  | SubColl _ => set_sub_collection c
  | EpColl _ => set_ep_collection c
  | OtherObject => raise TypeError
  end.

Definition remove_collection (c : collection) : M bool :=
  match c with
  | SubColl a =>
      let* sc := deref_sub a in
      let* result := _remove_sub_collection (sub_id_ (sc_subject sc)) in
      let* _ := update_sub a (sc_with_c_status None) in
      ret result
  | EpColl a =>
      let* ec := deref_ep a in
      let* result := _remove_ep_collection (ep_id_ (ec_episode ec)) in
      let* _ := update_ep a (ec_with_c_status None) in
      ret result
  | OtherObject => raise TypeError
  end.

Definition set_n_watched_eps (sub_collection : addr) : M bool :=
  let* sc := deref_sub sub_collection in
  match sc_c_status sc with
  | Some 1%Z => raise ValueError
  | _ =>
      match sc_n_watched_eps sc with
      | None => raise AttributeError
      | Some n =>
          let* result := _set_n_watched_eps (sub_id_ (sc_subject sc)) n in
          if result then
            let sub := sc_subject sc in
            let* html := _get_html_for_subject_eps (sub_id_ sub) in
            let* ecs := lift (ep_colls_for_sub_from_html sub html) in
            let* eas := alloc_eps ecs in
            let* _ := update_sub sub_collection (sc_with_ep_collections eas) in
            let* _ := for_each eas (fun e =>
                        let* sc' := deref_sub sub_collection in
                        let* _ := update_ep e (ec_with_session (sc_session sc')) in
                        update_ep e (ec_with_sub_collection (Some sub_collection))) in
            ret true
          else ret false
      end
  end.

(** *** Reading *)

Definition get_subject (sub_id : string) : M BangumiSubject :=
  let* sub_html := _get_html_for_subject_main sub_id in
  let* ep_html := _get_html_for_subject_eps sub_id in
  lift (subject_from_html sub_html ep_html).

Definition get_episode (ep_id : string) : M BangumiEpisode :=
  let* sub_id := _get_sub_id_for_ep ep_id in
  let* html := _get_html_for_subject_eps sub_id in
  lift (episode_from_html ep_id html).

Definition get_episodes_for_sub (sub_id : string) : M (list BangumiEpisode) :=
  let* html := _get_html_for_subject_eps sub_id in
  lift (eps_from_html html).

Definition get_sub_collection (sub_id : string) : M addr :=
  let* sub_html := _get_html_for_subject_main sub_id in
  let* ep_html := _get_html_for_subject_eps sub_id in
  let* p := lift (sub_coll_from_html sub_html ep_html) in
  let* sub_coll := alloc_sub_coll p in
  let* self := gets session_id in
  let* _ := update_sub sub_coll (sc_with_session (Some self)) in
  ret sub_coll.

Definition get_sub_collection_with_subject (subject : BangumiSubject) : M addr :=
  let* sub_html := _get_html_for_subject_main (sub_id_ subject) in
  let* ep_html := _get_html_for_subject_eps (sub_id_ subject) in
  let* p := lift (sub_coll_from_html_with_subject subject sub_html ep_html) in
  let* sub_collection := alloc_sub_coll p in
  let* self := gets session_id in
  let* _ := update_sub sub_collection (sc_with_session (Some self)) in
  ret sub_collection.

(** Modelled from the spec: an episode collection fetched on its own has
    no containing subject collection (section 3: the back-reference "may
    be absent for standalone fetches"); the factory itself is in
    [collection.py], not among the sources. *)
Definition alloc_standalone_ep (ec : BangumiEpisodeCollection) : M addr :=
  alloc_ep (ec_with_sub_collection None ec).

Definition get_ep_collection (ep_id : string) : M addr :=
  let* sub_id := _get_sub_id_for_ep ep_id in
  let* html := _get_html_for_subject_eps sub_id in
  let* ec := lift (ep_coll_from_html ep_id html) in
  let* ep_coll := alloc_standalone_ep ec in
  let* self := gets session_id in
  let* _ := update_ep ep_coll (ec_with_session (Some self)) in
  ret ep_coll.

Definition get_ep_collection_with_episode (episode : BangumiEpisode) : M addr :=
  let* sub_id := _get_sub_id_for_ep (ep_id_ episode) in
  let* html := _get_html_for_subject_eps sub_id in
  let* ec := lift (ep_coll_from_html_with_ep episode html) in
  let* ep_collection := alloc_standalone_ep ec in
  let* self := gets session_id in
  let* _ := update_ep ep_collection (ec_with_session (Some self)) in
  ret ep_collection.

(** *** The paginated listing *)

Definition c_status_map (c_status : Z) : option string :=
  match c_status with
  | 1 => Some "wish"
  | 2 => Some "collect"
  | 3 => Some "do"
  | 4 => Some "on_hold"
  | 5 => Some "dropped"
  | _ => None
  end%Z.

(** What [_get_dummy_colls_on_page] makes of a response whose status is
    200: one entry per [li] of the element [browserItemList]. *)
Definition page_entries (r : response) (c_status : Z)
  : outcome (list BangumiDummySubjectCollection) :=
  let r' := set_encoding (get_encoding_from_html (text r)) r in
  match find_id (BeautifulSoup (text r')) "browserItemList" with
  | None => Raise AttributeError
  | Some l => omap (fun i => dummy_from_soup_for_li i c_status)
                   (find_all_tag l "li")
  end.

Definition page_url (url : string) (page : Z) : string :=
  url +:+ "?page=" +:+ str page.

Definition _get_dummy_colls_on_page (url : string) (page c_status : Z)
  : M (list BangumiDummySubjectCollection) :=
  let* response := _get (page_url url page) in
  if negb (status_code response =? 200)%Z then raise RequestFailedError
  else lift (page_entries response c_status).

(** [xrange(1, n_pages + 1)] *)
Definition page_range (n_pages : Z) : list Z :=
  map Z.of_nat (seq 1 (Z.to_nat n_pages)).

(** The loop [for p in ...: dummy_colls += ...], from the pages still to
    fetch and the entries gathered so far. *)
Fixpoint collect_pages (url : string) (c_status : Z) (pages : list Z)
    (dummy_colls : list BangumiDummySubjectCollection)
  : M (list BangumiDummySubjectCollection) :=
  match pages with
  | [] => ret dummy_colls
  | p :: pages' =>
      let* on_page := _get_dummy_colls_on_page url p c_status in
      collect_pages url c_status pages' (dummy_colls ++ on_page)
  end.

Definition list_url (base sub_type user_id text_c_status : string) : string :=
  base +:+ "/" +:+ sub_type +:+ "/list/" +:+ user_id +:+ "/" +:+ text_c_status.

Definition get_dummy_collections (sub_type : string) (c_status : Z)
    (user_id : option string) : M (list BangumiDummySubjectCollection) :=
  if negb (existsb (String.eqb sub_type) ["anime"; "book"; "game"; "real"])
  then raise ValueError
  else if negb ((1 <=? c_status) && (c_status <? 6))%Z then raise ValueError
  else
    let* own := gets _user_id in
    let user_id := match user_id with
                   | Some u => if String.eqb u EmptyString then own else u
                   | None => own
                   end in
    match c_status_map c_status with
    | None => raise KeyError
    | Some text_c_status =>
        let* base := gets _base_url in
        let url := list_url base sub_type user_id text_c_status in
        let* response := _get url in
        let* n_pages := lift (get_n_pages (text response)) in
        let* dummy_colls := collect_pages url c_status (page_range n_pages) [] in
        let* self := gets session_id in
        ret (map (dm_with_session (Some self)) dummy_colls)
    end.

(** *** Login *)

Definition _VALID_DOMAIN : list string := ["bgm.tv"; "bangumi.tv"; "chii.in"].

Definition welcome_back : string := "欢迎您回来。现在将转入登录前页面".

(** On failure the method also prints the page, which is not modelled. *)
Definition _login (email password : string) : M unit :=
  let* base := gets _base_url in
  let* response :=
    transport (mkRequest POST (base +:+ "/FollowTheRabbit")
                 [("email", email); ("password", password);
                  ("loginsubmit", "登录")]) in
  if contains welcome_back (html_of response)
  then modify (with_logged_in true)
  else raise LoginFailedError.

Definition _get_gh : M string :=
  let* base := gets _base_url in
  let* response := _get base in
  match re_search ("<a href=" +:+ dq +:+ base +:+ "/logout/(.*?)" +:+ dq +:+ ">")
                  (text response) with
  | None => raise AttributeError
  | Some gh => ret gh
  end.

Definition _get_user_id : M string :=
  let* base := gets _base_url in
  let* response := _get base in
  lift (get_user_id_from_html (text response)).

(** The object before [__init__] has run, facing the given script. *)
Definition blank (self : nat) (script : list response) : world :=
  mkWorld self false EmptyString EmptyString EmptyString EmptyString false
          script [] ∅ ∅.

Definition with_base_url_email (b e : string) (w : world) : world :=
  mkWorld (session_id w) false b e (_gh w) (_user_id w)
          (closed w) (inbox w) (sent w) (sub_colls w) (ep_colls w).

(** [BangumiSession.__init__] *)
Definition BangumiSession_init (email password domain : string) : M unit :=
  if negb (existsb (String.eqb domain) _VALID_DOMAIN) then raise ValueError
  else
    let base := if String.prefix "http://" domain then domain
                else "http://" +:+ domain in
    let* _ := modify (with_base_url_email base email) in
    let* _ := _login email password in
    let* gh := _get_gh in
    let* _ := modify (with_gh gh) in
    let* uid := _get_user_id in
    modify (with_user_id uid).

(** ** The operations of a session, as one type *)

Inductive op :=
| Op_get (url : string)
| Op_post (url : string) (data : list (string * string))
| OpLogout
| OpGetSubject (sub_id : string)
| OpGetEpisode (ep_id : string)
| OpGetEpisodesForSub (sub_id : string)
| OpGetSubCollection (sub_id : string)
| OpGetSubCollectionWithSubject (subject : BangumiSubject)
| OpGetEpCollection (ep_id : string)
| OpGetEpCollectionWithEpisode (episode : BangumiEpisode)
| OpSetCollection (c : collection)
| OpSetSubCollection (c : collection)
| OpSetEpCollection (c : collection)
| OpRemoveCollection (c : collection)
| OpSetNWatchedEps (sub_collection : addr)
| OpGetDummyCollections (sub_type : string) (c_status : Z)
                        (user_id : option string).

Inductive value :=
| VNone
| VBool (b : bool)
| VRef (a : addr)
| VResponse (r : response)
| VSubject (s : BangumiSubject)
| VEpisode (e : BangumiEpisode)
| VEpisodes (l : list BangumiEpisode)
| VDummies (l : list BangumiDummySubjectCollection).

Definition returning {A} (f : A -> value) (m : M A) : M value :=
  let* x := m in ret (f x).

Definition run_op (o : op) : M value :=
  match o with
  | Op_get url => returning VResponse (_get url)
  | Op_post url data => returning VResponse (_post url data)
  | OpLogout => returning (fun _ => VNone) logout
  | OpGetSubject sub_id => returning VSubject (get_subject sub_id)
  | OpGetEpisode ep_id => returning VEpisode (get_episode ep_id)
  | OpGetEpisodesForSub sub_id => returning VEpisodes (get_episodes_for_sub sub_id)
  | OpGetSubCollection sub_id => returning VRef (get_sub_collection sub_id)
  | OpGetSubCollectionWithSubject subject =>
      returning VRef (get_sub_collection_with_subject subject)
  | OpGetEpCollection ep_id => returning VRef (get_ep_collection ep_id)
  | OpGetEpCollectionWithEpisode episode =>
      returning VRef (get_ep_collection_with_episode episode)
  | OpSetCollection c => returning VBool (set_collection c)
  | OpSetSubCollection c => returning VBool (set_sub_collection c)
  | OpSetEpCollection c => returning VBool (set_ep_collection c)
  | OpRemoveCollection c => returning VBool (remove_collection c)
  | OpSetNWatchedEps a => returning VBool (set_n_watched_eps a)
  | OpGetDummyCollections sub_type c_status user_id =>
      returning VDummies (get_dummy_collections sub_type c_status user_id)
  end.

(** A caller driving the session: operations one after the other,
    whatever each of them returns or raises. *)
Fixpoint run_ops (l : list op) (w : world) : world :=
  match l with
  | [] => w
  | o :: l' => run_ops l' (snd (run_op o w))
  end.

(** ** Vocabulary of the statements *)

(** The requests the write methods send, as the session in [w] builds
    them. *)
Definition remove_sub_url (w : world) (sc : BangumiSubjectCollection) : string :=
  _base_url w +:+ "/subject/" +:+ sub_id_ (sc_subject sc) +:+
  "/remove?gh=" +:+ _gh w.

Definition remove_ep_url (w : world) (ec : BangumiEpisodeCollection) : string :=
  _base_url w +:+ "/subject/ep/" +:+ ep_id_ (ec_episode ec) +:+
  "/status/remove?gh=" +:+ _gh w.

(** The episode ids of the episode collections stored at the addresses
    of [l], in the order of [l]. *)
Definition ep_ids_of (w : world) (l : list addr) : list string :=
  map (fun e => match ep_colls w !! e with
                | Some ec => ep_id_ (ec_episode ec)
                | None => EmptyString
                end) l.

(** The batch write for the episode collections at [l]: one POST that
    carries all their ids and is addressed by [key]. *)
Definition batch_request (w : world) (key : string) (l : list addr) : request :=
  mkRequest POST
    (_base_url w +:+ "/subject/ep/" +:+ key +:+
     "/status/watched?gh=" +:+ _gh w +:+ "&ajax=1")
    [("ep_id", join "," (ep_ids_of w l))].

Definition main_page_request (w : world) (sc : BangumiSubjectCollection) : request :=
  mkRequest GET (_base_url w +:+ "/subject/" +:+ sub_id_ (sc_subject sc)) [].

(** Every episode collection of [l] is in the store and names [s] as
    its containing subject collection. *)
Definition belong_to (w : world) (s : addr) (l : list addr) : Prop :=
  forall e, In e l ->
    exists ec, ep_colls w !! e = Some ec /\ ec_sub_collection ec = Some s.

(** A computation [respects] a relation on worlds when the world it
    leaves is related to the world it started in, whatever it returns
    or raises. *)
Definition respects (R : world -> world -> Prop) {A} (m : M A) : Prop :=
  forall w, R w (snd (m w)).

(** The log of requests only grows. *)
Definition sent_grows (w w' : world) : Prop :=
  exists more, sent w' = sent w ++ more.


(** A computation that, in a session that is not logged in, raises and
    leaves everything as it was. *)
Definition halts {A} (m : M A) : Prop :=
  forall w, _logged_in w = false -> exists e, m w = (Raise e, w).

(** A computation that, in a session that is not logged in, raises
    NotLoggedInError and leaves everything as it was. *)
Definition blocked {A} (m : M A) : Prop :=
  forall w, _logged_in w = false -> m w = (Raise NotLoggedInError, w).

(** The operations that check nothing of their argument before they go
    to the wire: the guarded calls themselves and the reading methods. *)
Definition straight_to_the_wire (o : op) : bool :=
  match o with
  | Op_get _ | Op_post _ _ | OpLogout
  | OpGetSubject _ | OpGetEpisode _ | OpGetEpisodesForSub _
  | OpGetSubCollection _ | OpGetSubCollectionWithSubject _
  | OpGetEpCollection _ | OpGetEpCollectionWithEpisode _ => true
  | _ => false
  end.

(** The address of a listing, with the user id defaulted as
    [get_dummy_collections] does. *)
Definition listing_url (w : world) (sub_type slug : string)
    (user_id : option string) : string :=
  list_url (_base_url w) sub_type
    (match user_id with
     | Some u => if String.eqb u EmptyString then _user_id w else u
     | None => _user_id w
     end) slug.

(** A page that is served with status 200 and whose entries are [es]. *)
Definition page_ok (c_status : Z) (r : response)
    (es : list BangumiDummySubjectCollection) : Prop :=
  status_code r = 200%Z /\ page_entries r c_status = Return es.






(** What the batch method does once its POST is answered. *)
Definition after_batch_answer (l : list addr) (s : addr) (response : response)
  : M bool :=
  if acknowledged response then
    let* sc := deref_sub s in
    let* html := _get_html_for_subject_main (sub_id_ (sc_subject sc)) in
    let* n := lift (get_n_watched_eps_from_soup (BeautifulSoup html)) in
    let* _ := update_sub s (sc_with_n_watched_eps (Some n)) in
    let* _ := for_each l (fun a => set_ep_c_status a "watched") in
    ret true
  else ret false.

(** The request for one page of a listing. *)
Definition page_request (url : string) (p : Z) : request :=
  mkRequest GET (page_url url p) [].

(** The reading of C5 that the code does not satisfy: any [c_status]
    outside the legal enumeration makes [set_sub_collection] raise
    ValueError. *)
Definition out_of_range_raises_ValueError (w : world) (a : addr) : Prop :=
  forall sc c,
    sub_colls w !! a = Some sc -> sc_c_status sc = Some c ->
    ~ In c SUB_VALID_C_STATUS ->
    fst (set_sub_collection (SubColl a) w) = Raise ValueError.

(** ** More of [utils.py], and what the further statements speak of *)

(** [c in s] for a character *)
Fixpoint occurs (c : ascii) (s : string) : bool :=
  match s with
  | EmptyString => false
  | String c' s' => Ascii.eqb c' c || occurs c s'
  end.

(** The loop of [get_ep_ids_up_to_this]: append the id, then break on
    the id of the target. *)
Fixpoint ids_up_to (target_id : string) (eps : list BangumiEpisode)
  : list string :=
  match eps with
  | [] => []
  | ep :: eps' =>
      ep_id_ ep ::
      (if String.eqb (ep_id_ ep) target_id then [] else ids_up_to target_id eps')
  end.

(** Modelled from the spec: [episode.subject.eps].  [element.py] is not
    among the sources; by section 3 an episode refers back to its
    subject, which holds the ordered sequence of its episodes, given
    here as [eps]. *)
Definition get_ep_ids_up_to_this (eps : list BangumiEpisode)
    (episode : BangumiEpisode) : list string :=
  ids_up_to (ep_id_ episode) eps.

(** The page number a link of the pager points at. *)
Definition link_page (p : node) : outcome Z :=
  match attr p "href" with
  | None => Raise KeyError
  | Some h => int_of (last_segment "=" h)
  end.

(** The form [set_sub_collection] posts for the subject collection [sc]
    whose status is [c_status]. *)
Definition interest_request (w : world) (sc : BangumiSubjectCollection)
    (c_status : Z) : request :=
  mkRequest POST
    (_base_url w +:+ "/subject/" +:+ sub_id_ (sc_subject sc) +:+
     "/interest/update?gh=" +:+ _gh w)
    [("referer", "subject"); ("interest", str c_status);
     ("rating", match sc_rating sc with
                | Some r => if (r =? 0)%Z then EmptyString else str r
                | None => EmptyString
                end);
     ("tags", join " " (sc_tags sc));
     ("comment", sc_comment sc); ("update", "保存")].

(** The request of the single-episode write. *)
Definition status_request (w : world) (ec : BangumiEpisodeCollection)
    (c_status : string) : request :=
  mkRequest GET
    (_base_url w +:+ "/subject/ep/" +:+ ep_id_ (ec_episode ec) +:+
     "/status/" +:+ c_status +:+ "?gh=" +:+ _gh w) [].

Definition logout_request (w : world) : request :=
  mkRequest GET (_base_url w +:+ "/logout/" +:+ _gh w) [].

Definition login_request (domain email password : string) : request :=
  mkRequest POST ("http://" +:+ domain +:+ "/FollowTheRabbit")
    [("email", email); ("password", password); ("loginsubmit", "登录")].

Definition home_request (domain : string) : request :=
  mkRequest GET ("http://" +:+ domain) [].

Definition watched_count_request (w : world) (sc : BangumiSubjectCollection)
    (n : Z) : request :=
  mkRequest POST
    (_base_url w +:+ "/subject/set/watched/" +:+ sub_id_ (sc_subject sc))
    [("referer", "subject"); ("submit", "更新"); ("watchedeps", str n)].

(** Both stores are the very same. *)
Definition same_store (w w' : world) : Prop :=
  sub_colls w' = sub_colls w /\ ep_colls w' = ep_colls w.

(** Every stored collection stays in the store and wraps the subject,
    or the episode, it wrapped. *)
Definition identity_kept (w w' : world) : Prop :=
  (forall a sc, sub_colls w !! a = Some sc ->
     exists sc', sub_colls w' !! a = Some sc' /\ sc_subject sc' = sc_subject sc) /\
  (forall a ec, ep_colls w !! a = Some ec ->
     exists ec', ep_colls w' !! a = Some ec' /\ ec_episode ec' = ec_episode ec).

(** The episode collections are the very same. *)
Definition same_ep_colls (w w' : world) : Prop := ep_colls w' = ep_colls w.

(** The episode wrapped by the episode collection stored at [e], and the
    episodes of a sequence of episode collections, in its order. *)
Definition episode_of (w : world) (e : addr) : BangumiEpisode :=
  match ep_colls w !! e with
  | Some ec => ec_episode ec
  | None => mkEpisode EmptyString
  end.

Definition episodes_of (w : world) (l : list addr) : list BangumiEpisode :=
  map (episode_of w) l.

(** What [set_n_watched_eps] makes of a freshly built episode collection:
    it takes the session of the parent and refers back to the parent. *)
Definition linked_to (a : addr) (sc : BangumiSubjectCollection)
    (ec : BangumiEpisodeCollection) : BangumiEpisodeCollection :=
  ec_with_sub_collection (Some a) (ec_with_session (sc_session sc) ec).

Definition eps_page_request (w : world) (sc : BangumiSubjectCollection) : request :=
  mkRequest GET
    (_base_url w +:+ "/subject/" +:+ sub_id_ (sc_subject sc) +:+ "/ep") [].

(** ** [bgmcli/cli/backend.py]: the titles offered for completion *)

(** The body of the inner loop of [CLIBackend._update_titles]. *)
Definition add_names (names : list string) (titles : gset string) : gset string :=
  fold_left (fun t name => if decide (name ∈ t) then t else {[name]} ∪ t)
            names titles.

(** [CLIBackend._update_titles] over the collections in [_watching]:
    the title, the localised title and the aliases of each subject are
    added to [_titles].  [aliases] stands for
    [sub.other_info.get('aliases', [])]. *)
Definition _update_titles (aliases : BangumiSubject -> list string)
    (watching : list BangumiDummySubjectCollection) (titles : gset string)
  : gset string :=
  fold_left (fun t coll =>
               let sub := dm_subject coll in
               add_names ([sub_title sub; sub_ch_title sub] ++ aliases sub) t)
            watching titles.

(** The names of a subject. *)
Definition names_of (aliases : BangumiSubject -> list string)
    (coll : BangumiDummySubjectCollection) : list string :=
  [sub_title (dm_subject coll); sub_ch_title (dm_subject coll)] ++
  aliases (dm_subject coll).


End Engine.

(** ** A simulated remote, for running the engine on concrete inputs

    Documents are written [key=value;key=value]: an element is found by
    id or class when the document has that key, and then carries the
    value as its [value], [href] and text, and stands for the avatar
    link and the current-page mark inside it as well.  A value [a,b,c]
    is a list of three items: the [li] of [browserItemList], the page
    links of [multipage]. *)
Module Sim.

Fixpoint split_aux (sep : ascii) (s acc : string) : list string :=
  match s with
  | EmptyString => [acc]
  | String c s' =>
      if Ascii.eqb c sep then acc :: split_aux sep s' EmptyString
      else split_aux sep s' (acc +:+ String c EmptyString)
  end.

Definition split (sep : ascii) (s : string) : list string :=
  split_aux sep s EmptyString.

Fixpoint assoc (k : string) (l : list (string * string)) : option string :=
  match l with
  | [] => None
  | (k', v) :: l' => if String.eqb k k' then Some v else assoc k l'
  end.

Fixpoint before_eq (s acc : string) : string * string :=
  match s with
  | EmptyString => (acc, EmptyString)
  | String c s' =>
      if Ascii.eqb c "=" then (acc, s')
      else before_eq s' (acc +:+ String c EmptyString)
  end.

Definition parse (s : string) : list (string * string) :=
  map (fun kv => before_eq kv EmptyString) (split ";" s).

Definition element (v : string) : list (string * string) :=
  [("value", v); ("href", v); ("text", v); ("avatar", v); ("p_cur", v)].

Definition lookup_element (n : list (string * string)) (k : string)
  : option (list (string * string)) :=
  option_map element (assoc k n).

Definition items (n : list (string * string)) : list (list (string * string)) :=
  match assoc "value" n with
  | None | Some EmptyString => []
  | Some v => map element (split "," v)
  end.

#[export] Instance bs : Bs4 := {|
  node := list (string * string);
  BeautifulSoup := parse;
  find_id := lookup_element;
  find_class := lookup_element;
  find_tag := lookup_element;
  find_all_class := fun n _ => items n;
  find_all_tag := fun n _ => items n;
  attr := fun n k => assoc k n;
  node_text := fun n => match assoc "text" n with
                        | Some t => t
                        | None => EmptyString
                        end
|}.

#[export] Instance py : PyLib := {|
  py_int := fun s => option_map Z.of_int (NilZero.int_of_string s);
  re_search := fun p s => if contains "charset" p then assoc "charset" (parse s)
                          else assoc "gh" (parse s)
|}.

Definition a_subject (id : string) : BangumiSubject := mkSubject id id id.

#[export] Instance co : Collaborators := {|
  SUB_VALID_C_STATUS := [1; 2; 3; 4; 5]%Z;
  EP_VALID_C_STATUS := ["watched"; "queue"; "drop"; "watched_up_to"];
  subject_from_html := fun _ _ => Raise TypeError;
  episode_from_html := fun ep_id _ => Return (mkEpisode ep_id);
  eps_from_html := fun _ => Return [];
  sub_coll_from_html := fun _ _ => Raise TypeError;
  sub_coll_from_html_with_subject := fun _ _ _ => Raise TypeError;
  ep_coll_from_html := fun ep_id _ => Return (mkEpColl (mkEpisode ep_id) None None None);
  ep_coll_from_html_with_ep := fun e _ => Return (mkEpColl e None None None);
  ep_colls_for_sub_from_html := fun _ _ => Return [];
  dummy_from_soup_for_li := fun i c =>
    match assoc "value" i with
    | Some v => Return (mkDummy (a_subject v) c None)
    | None => Raise KeyError
    end
|}.

(** A response with the given status and body, whatever the encoding. *)
Definition reply (status : Z) (body : string) : response :=
  mkResponse status None (fun _ => body).

(** A subject collection (address 0) of subject 253 with four episode
    collections (addresses 1 to 4, episodes 101 to 104), two of them
    watched; episode collection 9 names the same parent but is not in
    its sequence. *)
Definition the_sub_coll (c_status n_watched : option Z) : BangumiSubjectCollection :=
  mkSubColl (a_subject "253") c_status None ["a"; "b"] "fine" n_watched
            [1; 2; 3; 4] (Some 7).

Definition an_ep_coll (id : string) (c_status : option string)
    (parent : option addr) : BangumiEpisodeCollection :=
  mkEpColl (mkEpisode id) c_status parent (Some 7).

Definition eps_store (target : option string) (stray : option string)
  : gmap addr BangumiEpisodeCollection :=
  <[1 := an_ep_coll "101" (Some "watched") (Some 0)]>
  (<[2 := an_ep_coll "102" (Some "watched") (Some 0)]>
  (<[3 := an_ep_coll "103" target (Some 0)]>
  (<[4 := an_ep_coll "104" (Some "queue") (Some 0)]>
  (<[9 := an_ep_coll "109" stray (Some 0)]>
  (<[8 := an_ep_coll "108" stray None]> ∅))))).

Definition a_world (logged_in : bool) (sc : BangumiSubjectCollection)
    (eps : gmap addr BangumiEpisodeCollection) (script : list response) : world :=
  mkWorld 7 logged_in "http://bgm.tv" "me@example.org" "tok" "42" false
          script [] (<[0 := sc]> ∅) eps.

(** The worlds the engine is run in below. *)
Definition sc_watching : BangumiSubjectCollection := the_sub_coll (Some 3%Z) (Some 2%Z).

Definition w_batch : world :=
  a_world true sc_watching (eps_store (Some "watched_up_to") (Some "watched_up_to"))
          [reply 200 ack_body; reply 200 "watchedeps=3"].

Definition w_stray : world :=
  a_world true sc_watching (eps_store (Some "queue") (Some "watched_up_to"))
          [reply 200 ack_body; reply 200 "watchedeps=4"].

Definition w_single : world :=
  a_world true sc_watching (eps_store (Some "queue") (Some "queue"))
          [reply 500 "watchedeps=7"].

Definition w_zero : world :=
  a_world true (the_sub_coll (Some 0%Z) (Some 2%Z))
          (eps_store (Some "") (Some "bogus")) [].

Definition w_wish : world :=
  a_world true (the_sub_coll (Some 1%Z) None) (eps_store None None) [].

Definition w_no_count : world :=
  a_world true (the_sub_coll (Some 3%Z) None) (eps_store None None) [].

Definition w_out : world :=
  a_world false sc_watching (eps_store (Some "queue") (Some "queue"))
          [reply 200 "idBadgerNeue=/user/42"].

Definition w_list : world :=
  a_world true sc_watching (eps_store (Some "queue") (Some "queue"))
          [reply 200 "multipage=2"; reply 200 "browserItemList=11,12";
           reply 200 "browserItemList=13"].

(** Collaborators whose factories build something: a subject collection
    of subject 253 with two episode collections, whatever the pages. *)
Definition two_eps : list BangumiEpisodeCollection :=
  [mkEpColl (mkEpisode "201") (Some "watched") None None;
   mkEpColl (mkEpisode "202") None None None].

Definition co_building : Collaborators := {|
  SUB_VALID_C_STATUS := [1; 2; 3; 4; 5]%Z;
  EP_VALID_C_STATUS := ["watched"; "queue"; "drop"; "watched_up_to"];
  subject_from_html := fun _ _ => Return (a_subject "253");
  episode_from_html := fun ep_id _ => Return (mkEpisode ep_id);
  eps_from_html := fun _ => Return [mkEpisode "201"; mkEpisode "202"];
  sub_coll_from_html := fun _ _ =>
    Return (the_sub_coll (Some 3%Z) (Some 1%Z), two_eps);
  sub_coll_from_html_with_subject := fun _ _ _ =>
    Return (the_sub_coll (Some 3%Z) (Some 1%Z), two_eps);
  ep_coll_from_html := fun ep_id _ =>
    Return (mkEpColl (mkEpisode ep_id) None None None);
  ep_coll_from_html_with_ep := fun e _ => Return (mkEpColl e None None None);
  ep_colls_for_sub_from_html := fun _ _ => Return two_eps;
  dummy_from_soup_for_li := fun i c =>
    match assoc "value" i with
    | Some v => Return (mkDummy (a_subject v) c None)
    | None => Raise KeyError
    end
|}.

Definition w_with (script : list response) : world :=
  a_world true sc_watching (eps_store (Some "queue") (Some "queue")) script.

Definition badge_page : response := reply 200 "idBadgerNeue=/user/42".

Definition plain_page : response := reply 200 "nothing=here".





(** A listing of three pages whose second page is refused, and a listing
    of two pages announced by an answer of status 500. *)
Definition w_list_stop : world :=
  a_world true sc_watching (eps_store (Some "queue") (Some "queue"))
          [reply 200 "multipage=3"; reply 200 "browserItemList=11,12";
           reply 404 "browserItemList=13"; reply 200 "browserItemList=14"].

Definition w_list_unchecked : world :=
  a_world true sc_watching (eps_store (Some "queue") (Some "queue"))
          [reply 500 "multipage=2"; reply 200 "browserItemList=11,12";
           reply 200 "browserItemList=13"].

End Sim.

(** * Properties *)

Section Properties.
Context `{bs : Bs4} `{py : PyLib} `{co : !Collaborators}.

(** ** Membership tests *)

Lemma existsb_Z_in (c : Z) (l : list Z) :
  existsb (Z.eqb c) l = true <-> In c l.
Proof.
  rewrite existsb_exists. split.
  - intros [x [Hx He]]. apply Z.eqb_eq in He. now subst.
  - intros Hc. exists c. split; [assumption | apply Z.eqb_refl].
Qed.

Lemma existsb_string_in (c : string) (l : list string) :
  existsb (String.eqb c) l = true <-> In c l.
Proof.
  rewrite existsb_exists. split.
  - intros [x [Hx He]]. apply String.eqb_eq in He. now subst.
  - intros Hc. exists c. split; [assumption | apply String.eqb_refl].
Qed.

Lemma existsb_Z_out (c : Z) (l : list Z) :
  ~ In c l -> existsb (Z.eqb c) l = false.
Proof.
  intros Hn. destruct (existsb (Z.eqb c) l) eqn:E; [|reflexivity].
  apply existsb_Z_in in E. contradiction.
Qed.

Lemma existsb_string_out (c : string) (l : list string) :
  ~ In c l -> existsb (String.eqb c) l = false.
Proof.
  intros Hn. destruct (existsb (String.eqb c) l) eqn:E; [|reflexivity].
  apply existsb_string_in in E. contradiction.
Qed.

(** ** Validation before the wire *)

(** Running a method on a stored subject or episode collection starts by
    reading it. *)
Ltac step :=
  cbn -[String.eqb String.append String.prefix existsb Z.eqb Z.leb Z.ltb
        str join last_segment contains ack_body].

Ltac read_store H :=
  unfold bind, deref_sub, deref_ep; step; rewrite H; step.

(** C6.  An episode collection whose status is the directive
    [watched_up_to] and that has no containing subject collection is
    refused with an AttributeError, by [set_ep_collection] and through
    [set_collection] alike; the session, the store and the wire are left
    as they were, so no request has been issued. *)
Theorem watched_up_to_needs_parent (w : world) (a : addr)
    (ec : BangumiEpisodeCollection) :
  In "watched_up_to" EP_VALID_C_STATUS ->
  ep_colls w !! a = Some ec ->
  ec_c_status ec = Some "watched_up_to" ->
  ec_sub_collection ec = None ->
  set_ep_collection (EpColl a) w = (Raise AttributeError, w) /\
  set_collection (EpColl a) w = (Raise AttributeError, w).
Proof.
  intros Hvalid Hec Hst Hpar.
  assert (set_ep_collection (EpColl a) w = (Raise AttributeError, w)) as Hrun.
  { unfold set_ep_collection. read_store Hec. rewrite Hst. step.
    apply existsb_string_in in Hvalid. rewrite Hvalid. step.
    rewrite Hpar. reflexivity. }
  split; [exact Hrun | exact Hrun].
Qed.

(** C5, as amended.  Submitting a collection whose [c_status] is unset,
    or is a value Python counts as false (the integer 0, the empty
    string), raises AttributeError; submitting one whose [c_status] is
    any other value outside the legal enumeration of its kind raises
    ValueError.  In each case nothing has changed afterwards: no request
    was issued. *)
Theorem c_status_checked_before_the_wire (w : world) (a : addr) :
  (forall sc, sub_colls w !! a = Some sc ->
     (truthy_int (sc_c_status sc) = false ->
      set_sub_collection (SubColl a) w = (Raise AttributeError, w)) /\
     (forall c, sc_c_status sc = Some c -> c <> 0%Z ->
      ~ In c SUB_VALID_C_STATUS ->
      set_sub_collection (SubColl a) w = (Raise ValueError, w))) /\
  (forall ec, ep_colls w !! a = Some ec ->
     (truthy_str (ec_c_status ec) = false ->
      set_ep_collection (EpColl a) w = (Raise AttributeError, w)) /\
     (forall c, ec_c_status ec = Some c -> c <> EmptyString ->
      ~ In c EP_VALID_C_STATUS ->
      set_ep_collection (EpColl a) w = (Raise ValueError, w))).
Proof.
  split.
  - intros sc Hsc. split.
    + intros Hf. unfold set_sub_collection. read_store Hsc.
      rewrite Hf. reflexivity.
    + intros c Hc Hnz Hout. unfold set_sub_collection. read_store Hsc.
      rewrite Hc. step.
      apply Z.eqb_neq in Hnz. rewrite Hnz. step.
      rewrite (existsb_Z_out _ _ Hout). reflexivity.
  - intros ec Hec. split.
    + intros Hf. unfold set_ep_collection. read_store Hec.
      rewrite Hf. reflexivity.
    + intros c Hc Hnz Hout. unfold set_ep_collection. read_store Hec.
      rewrite Hc. step.
      apply String.eqb_neq in Hnz. rewrite Hnz. step.
      rewrite (existsb_string_out _ _ Hout). reflexivity.
Qed.

(** C10.  [set_n_watched_eps] applies its two rules in the order the
    claim names them.  On a subject collection whose [c_status] is 1 it
    raises ValueError, whatever its watched count; on one that passes
    this first rule and whose [n_watched_eps] is unset it raises
    AttributeError.  In both cases the session, the store and the wire
    are exactly as before: no request was issued. *)
Theorem watched_count_checked_before_the_wire (w : world) (a : addr)
    (sc : BangumiSubjectCollection) :
  sub_colls w !! a = Some sc ->
  (sc_c_status sc = Some 1%Z ->
   set_n_watched_eps a w = (Raise ValueError, w)) /\
  (sc_c_status sc <> Some 1%Z -> sc_n_watched_eps sc = None ->
   set_n_watched_eps a w = (Raise AttributeError, w)).
Proof.
  intros Hsc. split.
  - intros H1. unfold set_n_watched_eps. read_store Hsc.
    rewrite H1. reflexivity.
  - intros Hn1 Hnone. unfold set_n_watched_eps. read_store Hsc.
    rewrite Hnone.
    destruct (sc_c_status sc) as [[|[p|p|]|p]|]; try reflexivity.
    congruence.
Qed.

(** ** Stepping through a computation *)

Lemma bind_return {A B} (m : M A) (k : A -> M B) (w w' : world) (a : A) :
  m w = (Return a, w') -> bind m k w = k a w'.
Proof. intros H. unfold bind. now rewrite H. Qed.

Lemma bind_raise {A B} (m : M A) (k : A -> M B) (w w' : world) (e : exn) :
  m w = (Raise e, w') -> bind m k w = (Raise e, w').
Proof. intros H. unfold bind. now rewrite H. Qed.

Lemma deref_sub_some (w : world) (a : addr) (sc : BangumiSubjectCollection) :
  sub_colls w !! a = Some sc -> deref_sub a w = (Return sc, w).
Proof. intros H. unfold deref_sub. now rewrite H. Qed.

Lemma deref_ep_some (w : world) (a : addr) (ec : BangumiEpisodeCollection) :
  ep_colls w !! a = Some ec -> deref_ep a w = (Return ec, w).
Proof. intros H. unfold deref_ep. now rewrite H. Qed.

Lemma update_sub_some (w : world) (a : addr) (sc : BangumiSubjectCollection) f :
  sub_colls w !! a = Some sc ->
  update_sub a f w = (Return tt, with_sub_colls (<[a := f sc]> (sub_colls w)) w).
Proof.
  intros H. unfold update_sub.
  now rewrite (bind_return _ _ _ _ _ (deref_sub_some _ _ _ H)).
Qed.

Lemma update_ep_some (w : world) (a : addr) (ec : BangumiEpisodeCollection) f :
  ep_colls w !! a = Some ec ->
  update_ep a f w = (Return tt, with_ep_colls (<[a := f ec]> (ep_colls w)) w).
Proof.
  intros H. unfold update_ep.
  now rewrite (bind_return _ _ _ _ _ (deref_ep_some _ _ _ H)).
Qed.

(** ** The guarded calls of a session that is logged in *)

Lemma _get_logged_in (w : world) (url : string) (r : response)
    (rest : list response) :
  _logged_in w = true -> inbox w = r :: rest ->
  _get url w = (Return r, with_wire rest (sent w ++ [mkRequest GET url []]) w).
Proof.
  intros Hin Hbox. unfold _get, require_login, transport.
  rewrite Hin, Hbox. reflexivity.
Qed.

Lemma _post_logged_in (w : world) (url : string) (data : list (string * string))
    (r : response) (rest : list response) :
  _logged_in w = true -> inbox w = r :: rest ->
  _post url data w =
  (Return r, with_wire rest (sent w ++ [mkRequest POST url data]) w).
Proof.
  intros Hin Hbox. unfold _post, require_login, transport.
  rewrite Hin, Hbox. reflexivity.
Qed.

(** ** Removal *)

(** When [check_response] gives a verdict on the answer, be it True or
    False, [remove_collection] has sent the removal request, set the
    local [c_status] to None and returns that verdict. *)
Lemma remove_clears_status_on_a_verdict (w : world) (a : addr)
    (r : response) (rest : list response) (b : bool) :
  _logged_in w = true ->
  inbox w = r :: rest ->
  check_response r = Return b ->
  (forall sc, sub_colls w !! a = Some sc ->
     remove_collection (SubColl a) w =
     (Return b,
      with_sub_colls
        (<[a := mkSubColl (sc_subject sc) None (sc_rating sc) (sc_tags sc)
                  (sc_comment sc) (sc_n_watched_eps sc)
                  (sc_ep_collections sc) (sc_session sc)]> (sub_colls w))
        (with_wire rest (sent w ++ [mkRequest GET (remove_sub_url w sc) []]) w))) /\
  (forall ec, ep_colls w !! a = Some ec ->
     remove_collection (EpColl a) w =
     (Return b,
      with_ep_colls
        (<[a := mkEpColl (ec_episode ec) None (ec_sub_collection ec)
                  (ec_session ec)]> (ep_colls w))
        (with_wire rest (sent w ++ [mkRequest GET (remove_ep_url w ec) []]) w))).
Proof.
  intros Hin Hbox Hcheck. split.
  - intros sc Hsc. unfold remove_collection. read_store Hsc.
    unfold _remove_sub_collection, bind, gets, lift. step.
    rewrite (_get_logged_in w _ r rest Hin Hbox).
    rewrite Hcheck. unfold update_sub, bind, deref_sub. step.
    rewrite Hsc. reflexivity.
  - intros ec Hec. unfold remove_collection. read_store Hec.
    unfold _remove_ep_collection, bind, gets, lift. step.
    rewrite (_get_logged_in w _ r rest Hin Hbox).
    rewrite Hcheck. unfold update_ep, bind, deref_ep. step.
    rewrite Hec. reflexivity.
Qed.

(** ** Computations that respect a relation on worlds *)

Section Respects.
Variable R : world -> world -> Prop.
Hypothesis R_refl : forall w, R w w.
Hypothesis R_trans : forall w1 w2 w3, R w1 w2 -> R w2 w3 -> R w1 w3.

Lemma respects_ret {A} (a : A) : respects R (ret a).
Proof. intros w. apply R_refl. Qed.

Lemma respects_raise {A} (e : exn) : respects R (@raise A e).
Proof. intros w. apply R_refl. Qed.

Lemma respects_lift {A} (o : outcome A) : respects R (lift o).
Proof. intros w. apply R_refl. Qed.

Lemma respects_gets {A} (f : world -> A) : respects R (gets f).
Proof. intros w. apply R_refl. Qed.

Lemma respects_deref_sub (a : addr) : respects R (deref_sub a).
Proof. intros w. unfold deref_sub. destruct (sub_colls w !! a); apply R_refl. Qed.

Lemma respects_deref_ep (a : addr) : respects R (deref_ep a).
Proof. intros w. unfold deref_ep. destruct (ep_colls w !! a); apply R_refl. Qed.

Lemma respects_bind {A B} (m : M A) (k : A -> M B) :
  respects R m -> (forall x, respects R (k x)) -> respects R (bind m k).
Proof.
  intros Hm Hk w. unfold bind. specialize (Hm w).
  destruct (m w) as [[x|e] w1]; cbn in *; [|exact Hm].
  eapply R_trans; [exact Hm | apply Hk].
Qed.

Lemma respects_require_login {A} (m : M A) :
  respects R m -> respects R (require_login m).
Proof.
  intros Hm w. unfold require_login.
  destruct (negb (_logged_in w)); [apply R_refl | apply Hm].
Qed.

Lemma respects_for_each {A} (l : list A) (body : A -> M unit) :
  (forall x, respects R (body x)) -> respects R (for_each l body).
Proof.
  intros Hb. induction l as [|x l IH]; cbn.
  - apply respects_ret.
  - apply respects_bind; [apply Hb | intros _; exact IH].
Qed.

Lemma respects_map_M {A B} (f : A -> M B) (l : list A) :
  (forall x, respects R (f x)) -> respects R (map_M f l).
Proof.
  intros Hf. induction l as [|x l IH]; cbn.
  - apply respects_ret.
  - apply respects_bind; [apply Hf | intros y].
    apply respects_bind; [exact IH | intros ys; apply respects_ret].
Qed.

End Respects.

(** Breaks a method down to its primitive steps; [leaf] settles those
    that touch the world. *)
Ltac respects_with Rr Rt leaf :=
  repeat first
    [ leaf
    | lazymatch goal with
      | |- respects _ (ret _) => apply (respects_ret _ Rr)
      | |- respects _ (raise _) => apply (respects_raise _ Rr)
      | |- respects _ (lift _) => apply (respects_lift _ Rr)
      | |- respects _ (gets _) => apply (respects_gets _ Rr)
      | |- respects _ (deref_sub _) => apply (respects_deref_sub _ Rr)
      | |- respects _ (deref_ep _) => apply (respects_deref_ep _ Rr)
      | |- respects _ (require_login _) => apply (respects_require_login _ Rr)
      | |- respects _ (for_each _ _) =>
          apply (respects_for_each _ Rr Rt); intros ?
      | |- respects _ (map_M _ _) => apply (respects_map_M _ Rr Rt); intros ?
      | |- respects _ (bind _ _) => apply (respects_bind _ Rt); [| intros ?]
      | |- respects _ (match ?x with _ => _ end) => destruct x
      | |- respects _ (let _ := _ in _) => cbv zeta
      end ].

(** *** The log of requests only grows *)

Lemma sent_grows_refl (w : world) : sent_grows w w.
Proof. exists []. symmetry. apply app_nil_r. Qed.

Lemma sent_grows_trans (w1 w2 w3 : world) :
  sent_grows w1 w2 -> sent_grows w2 w3 -> sent_grows w1 w3.
Proof.
  intros [m1 H1] [m2 H2]. exists (m1 ++ m2).
  rewrite H2, H1. symmetry. apply app_assoc.
Qed.

Lemma sent_grows_same (w w' : world) : sent w' = sent w -> sent_grows w w'.
Proof. intros H. exists []. rewrite H. symmetry. apply app_nil_r. Qed.

Lemma sent_grows_transport (rq : request) : respects sent_grows (transport rq).
Proof.
  intros w. unfold transport. destruct (inbox w); exists [rq]; reflexivity.
Qed.

Lemma sent_grows_modify (f : world -> world) :
  (forall w, sent (f w) = sent w) -> respects sent_grows (modify f).
Proof. intros Hf w. apply sent_grows_same. apply Hf. Qed.

Lemma sent_grows_update_sub a f : respects sent_grows (update_sub a f).
Proof.
  unfold update_sub.
  respects_with sent_grows_refl sent_grows_trans
    ltac:(apply sent_grows_modify; reflexivity).
Qed.

Lemma sent_grows_update_ep a f : respects sent_grows (update_ep a f).
Proof.
  unfold update_ep.
  respects_with sent_grows_refl sent_grows_trans
    ltac:(apply sent_grows_modify; reflexivity).
Qed.

(** ** The watched-up-to batch *)

Lemma up_to_this_found (t : addr) (pre post : list addr) :
  ~ In t pre -> up_to_this t (pre ++ t :: post) = pre ++ [t].
Proof.
  induction pre as [|x pre IH]; intros Hn; cbn.
  - unfold ep_coll_eq. now rewrite Nat.eqb_refl.
  - unfold ep_coll_eq. destruct (Nat.eqb_spec x t) as [->|Hne].
    + exfalso. apply Hn. now left.
    + f_equal. apply IH. intros Hin. apply Hn. now right.
Qed.

Lemma up_to_this_missing (t : addr) (l : list addr) :
  ~ In t l -> up_to_this t l = l.
Proof.
  induction l as [|x l IH]; intros Hn; cbn; [reflexivity|].
  unfold ep_coll_eq. destruct (Nat.eqb_spec x t) as [->|Hne].
  - exfalso. apply Hn. now left.
  - f_equal. apply IH. intros Hin. apply Hn. now right.
Qed.

Lemma first_occurrence (t : addr) (l : list addr) :
  In t l -> exists pre post, l = pre ++ t :: post /\ ~ In t pre.
Proof.
  induction l as [|x l IH]; intros Hin; [destruct Hin|].
  destruct (Nat.eq_dec x t) as [->|Hne].
  - exists [], l. split; [reflexivity | intros []].
  - destruct Hin as [->|Hin]; [congruence|].
    destruct (IH Hin) as (pre & post & -> & Hn).
    exists (x :: pre), post. split; [reflexivity|].
    intros [->|H]; [congruence | contradiction].
Qed.

(** The consistency check of [_set_watched_eps_in_sub] passes on a batch
    whose members all name the same parent. *)
Lemma same_parent_check (w : world) (s : addr) (l : list addr) :
  belong_to w s l ->
  for_each l (fun a =>
    let* ec := deref_ep a in
    if negb (is_same (ec_sub_collection ec) (Some s))
    then raise ValueError else ret tt) w = (Return tt, w).
Proof.
  induction l as [|x l IH]; intros Hb; [reflexivity|].
  cbn. destruct (Hb x) as (ec & Hec & Hpar); [now left|].
  erewrite bind_return.
  2:{ rewrite (bind_return _ _ _ _ _ (deref_ep_some _ _ _ Hec)).
      rewrite Hpar. cbn. rewrite Nat.eqb_refl. reflexivity. }
  apply IH. intros e He. apply Hb. now right.
Qed.

Lemma read_batch (w : world) (s : addr) (l : list addr) :
  belong_to w s l ->
  exists ecs, map_M deref_ep l w = (Return ecs, w) /\
              map (fun ec => ep_id_ (ec_episode ec)) ecs = ep_ids_of w l.
Proof.
  induction l as [|x l IH]; intros Hb.
  - exists []. split; reflexivity.
  - destruct (Hb x) as (ec & Hec & _); [now left|].
    destruct IH as (ecs & Hrun & Hids); [intros e He; apply Hb; now right|].
    exists (ec :: ecs). split.
    + cbn. rewrite (bind_return _ _ _ _ _ (deref_ep_some _ _ _ Hec)).
      now rewrite (bind_return _ _ _ _ _ Hrun).
    + cbn. rewrite Hec, Hids. reflexivity.
Qed.

Lemma watched_twice (ec : BangumiEpisodeCollection) (c : option string) :
  ec_with_c_status c (ec_with_c_status c ec) = ec_with_c_status c ec.
Proof. reflexivity. Qed.



(** On a batch whose members share the parent [s], in a session that is
    logged in, the batch method is its POST followed by the above. *)
Lemma batch_is_one_post (w : world) (l : list addr) (s : addr) :
  _logged_in w = true -> l <> [] -> belong_to w s l ->
  _set_watched_eps_in_sub l w =
  bind (transport (batch_request w (List.last (ep_ids_of w l) EmptyString) l))
       (after_batch_answer l s) w.
Proof.
  intros Hin Hne Hb.
  destruct l as [|first tl]; [congruence|].
  destruct (Hb first) as (ec0 & Hec0 & Hpar0); [now left|].
  destruct (read_batch w s _ Hb) as (ecs & Hread & Hids).
  unfold _set_watched_eps_in_sub.
  rewrite (bind_return _ _ _ _ _ (deref_ep_some _ _ _ Hec0)).
  cbv zeta. rewrite Hpar0.
  rewrite (bind_return _ _ _ _ _ (same_parent_check w s _ Hb)).
  rewrite (bind_return _ _ _ _ _ Hread).
  rewrite Hids.
  unfold gets at 1 2. unfold bind at 1 2.
  unfold _post, require_login, bind. rewrite Hin. reflexivity.
Qed.

Lemma batch_until_answer (w : world) (l : list addr) (s : addr)
    (r : response) (rest : list response) :
  _logged_in w = true -> l <> [] -> belong_to w s l ->
  inbox w = r :: rest ->
  let rq := batch_request w (List.last (ep_ids_of w l) EmptyString) l in
  _set_watched_eps_in_sub l w =
  after_batch_answer l s r (with_wire rest (sent w ++ [rq]) w).
Proof.
  intros Hin Hne Hb Hbox rq.
  rewrite (batch_is_one_post w l s Hin Hne Hb). fold rq.
  apply bind_return. unfold transport. now rewrite Hbox.
Qed.



Lemma sent_grows_get (url : string) : respects sent_grows (_get url).
Proof.
  apply (respects_require_login _ sent_grows_refl), sent_grows_transport.
Qed.

Lemma sent_grows_after_batch_answer (l : list addr) (s : addr) (r : response) :
  respects sent_grows (after_batch_answer l s r).
Proof.
  unfold after_batch_answer, _get_html_for_subject_main, set_ep_c_status.
  respects_with sent_grows_refl sent_grows_trans
    ltac:(first [ apply sent_grows_get | apply sent_grows_update_sub
                | apply sent_grows_update_ep ]).
Qed.

Lemma ep_ids_of_app (w : world) (l1 l2 : list addr) :
  ep_ids_of w (l1 ++ l2) = ep_ids_of w l1 ++ ep_ids_of w l2.
Proof. apply map_app. Qed.

Lemma belong_to_prefix (w : world) (s : addr) (pre post : list addr) :
  belong_to w s (pre ++ post) -> belong_to w s pre.
Proof. intros Hb e He. apply Hb, in_or_app. now left. Qed.

(** C2.  The target episode collection [a] carries the directive
    [watched_up_to] and is listed in the [ep_collections] of its subject
    collection [s], whose members all refer back to [s].  Then the batch
    derived for it is the stored sequence cut after the first occurrence
    of [a], that is a prefix [pre ++ [a]] in stored order, and the first
    request the submission sends is the batch POST that carries the
    episode ids of that prefix and is addressed by the episode id of
    [a], the last of the prefix. *)
Theorem watched_up_to_batch_is_inclusive_prefix (w : world) (a s : addr)
    (ec : BangumiEpisodeCollection) (sc : BangumiSubjectCollection) :
  In "watched_up_to" EP_VALID_C_STATUS ->
  _logged_in w = true ->
  ep_colls w !! a = Some ec ->
  ec_c_status ec = Some "watched_up_to" ->
  ec_sub_collection ec = Some s ->
  sub_colls w !! s = Some sc ->
  In a (sc_ep_collections sc) ->
  belong_to w s (sc_ep_collections sc) ->
  exists pre post,
    sc_ep_collections sc = pre ++ a :: post /\ ~ In a pre /\
    get_ep_colls_up_to_this a w = (Return (pre ++ [a]), w) /\
    exists more,
      sent (snd (set_ep_collection (EpColl a) w)) =
      sent w ++
      batch_request w (ep_id_ (ec_episode ec)) (pre ++ [a]) :: more.
Proof.
  intros Hvalid Hin Hec Hst Hpar Hsc Hmem Hb.
  destruct (first_occurrence a _ Hmem) as (pre & post & Hsplit & Hfirst).
  exists pre, post. split; [exact Hsplit|]. split; [exact Hfirst|].
  assert (get_ep_colls_up_to_this a w = (Return (pre ++ [a]), w)) as Hwalk.
  { unfold get_ep_colls_up_to_this.
    rewrite (bind_return _ _ _ _ _ (deref_ep_some _ _ _ Hec)). rewrite Hpar.
    rewrite (bind_return _ _ _ _ _ (deref_sub_some _ _ _ Hsc)).
    rewrite Hsplit, (up_to_this_found a pre post Hfirst). reflexivity. }
  split; [exact Hwalk|].
  assert (belong_to w s (pre ++ [a])) as Hb'.
  { apply (belong_to_prefix w s (pre ++ [a]) post).
    rewrite <- app_assoc. cbn. rewrite <- Hsplit. exact Hb. }
  assert (pre ++ [a] <> []) as Hne by (now destruct pre).
  assert (List.last (ep_ids_of w (pre ++ [a])) EmptyString =
          ep_id_ (ec_episode ec)) as Hkey.
  { rewrite ep_ids_of_app. cbn. rewrite Hec. apply List.last_last. }
  unfold set_ep_collection.
  rewrite (bind_return _ _ _ _ _ (deref_ep_some _ _ _ Hec)).
  rewrite Hst. change (truthy_str (Some "watched_up_to")) with true.
  apply existsb_string_in in Hvalid. cbn [negb]. rewrite Hvalid.
  cbn [negb]. rewrite String.eqb_refl, Hpar.
  rewrite (bind_return _ _ _ _ _ Hwalk).
  rewrite (batch_is_one_post w _ s Hin Hne Hb'), Hkey.
  set (rq := batch_request w _ _).
  unfold bind, transport.
  destruct (inbox w) as [|r rest].
  - exists []. reflexivity.
  - destruct (sent_grows_after_batch_answer (pre ++ [a]) s r
                (with_wire rest (sent w ++ [rq]) w)) as [more Hmore].
    exists more. rewrite Hmore. cbn. rewrite <- app_assoc. reflexivity.
Qed.

(** ** The login guard *)

Lemma halts_raise {A} (e : exn) : halts (@raise A e).
Proof. intros w _. exists e. reflexivity. Qed.

Lemma blocked_halts {A} (m : M A) : blocked m -> halts m.
Proof. intros Hm w Hw. exists NotLoggedInError. now apply Hm. Qed.

Lemma blocked_require_login {A} (m : M A) : blocked (require_login m).
Proof. intros w Hw. unfold require_login. now rewrite Hw. Qed.

Lemma blocked_bind {A B} (m : M A) (k : A -> M B) :
  blocked m -> blocked (bind m k).
Proof. intros Hm w Hw. apply bind_raise. now apply Hm. Qed.

Lemma blocked_after_gets {A B} (f : world -> A) (k : A -> M B) :
  (forall x, blocked (k x)) -> blocked (bind (gets f) k).
Proof. intros Hk w Hw. unfold bind, gets. now apply Hk. Qed.

Lemma halts_bind {A B} (m : M A) (k : A -> M B) :
  halts m -> halts (bind m k).
Proof.
  intros Hm w Hw. destruct (Hm w Hw) as [e He]. exists e.
  now apply bind_raise.
Qed.

(** A step that leaves the world alone hands the question to what
    follows it. *)
Lemma halts_after_pure {A B} (m : M A) (k : A -> M B) :
  respects eq m -> (forall x, halts (k x)) -> halts (bind m k).
Proof.
  intros Hm Hk w Hw. unfold bind. specialize (Hm w).
  destruct (m w) as [[x|e] w1]; cbn in Hm; subst w1.
  - now apply Hk.
  - now exists e.
Qed.

Ltac pure_steps :=
  respects_with (@eq_refl world) (@eq_trans world) fail.

Ltac blocked_steps :=
  repeat lazymatch goal with
  | |- blocked (require_login _) => apply blocked_require_login
  | |- blocked (bind (gets _) _) => apply blocked_after_gets; intros ?
  | |- blocked (bind _ _) => apply blocked_bind
  end.

Ltac halts_steps :=
  repeat lazymatch goal with
  | |- halts (raise _) => apply halts_raise
  | |- halts (require_login _) => apply blocked_halts, blocked_require_login
  | |- halts (bind (for_each _ _) _) =>
      apply halts_after_pure; [solve [pure_steps] | intros ?]
  | |- halts (bind (map_M _ _) _) =>
      apply halts_after_pure; [solve [pure_steps] | intros ?]
  | |- halts (bind _ _) =>
      first [ apply halts_bind; solve [halts_steps]
            | apply halts_after_pure; [solve [pure_steps] | intros ?] ]
  | |- halts (match ?x with _ => _ end) => destruct x
  | |- halts (let _ := _ in _) => cbv zeta
  end.

Lemma blocked_run_op (o : op) :
  straight_to_the_wire o = true -> blocked (run_op o).
Proof.
  destruct o; cbn; try discriminate; intros _;
    unfold returning, logout, get_subject, get_episode,
      get_episodes_for_sub, get_sub_collection,
      get_sub_collection_with_subject, get_ep_collection,
      get_ep_collection_with_episode, _get_sub_id_for_ep, _get_html_for_ep,
      _get_html_for_subject_main, _get_html_for_subject_eps, _get, _post;
    blocked_steps.
Qed.

Lemma halts_set_watched_eps_in_sub (l : list addr) :
  halts (_set_watched_eps_in_sub l).
Proof.
  unfold _set_watched_eps_in_sub, _post. halts_steps.
Qed.

Lemma halts_set_sub_collection (c : collection) : halts (set_sub_collection c).
Proof. unfold set_sub_collection, _post. halts_steps. Qed.

Lemma halts_set_ep_collection (c : collection) : halts (set_ep_collection c).
Proof.
  unfold set_ep_collection, get_ep_colls_up_to_this, _get.
  pose proof halts_set_watched_eps_in_sub as Hbatch.
  repeat first [ apply Hbatch | progress halts_steps ].
Qed.

Lemma halts_run_op (o : op) : halts (run_op o).
Proof.
  destruct (straight_to_the_wire o) eqn:Ho.
  - apply blocked_halts, blocked_run_op, Ho.
  - destruct o; try discriminate Ho; unfold run_op, returning;
      apply halts_bind.
    + destruct c;
        [exact (halts_set_sub_collection _) | exact (halts_set_ep_collection _)
        | apply halts_raise].
    + apply halts_set_sub_collection.
    + apply halts_set_ep_collection.
    + unfold remove_collection, _remove_sub_collection,
        _remove_ep_collection, _get. halts_steps.
    + unfold set_n_watched_eps, _set_n_watched_eps, _post. halts_steps.
    + unfold get_dummy_collections, _get. halts_steps.
Qed.

Lemma logout_logs_out (w : world) : _logged_in (snd (logout w)) = false.
Proof.
  unfold logout, require_login.
  destruct (_logged_in w) eqn:Hw; cbn; [|exact Hw].
  unfold bind, modify, gets, transport. cbn.
  destruct (inbox w); reflexivity.
Qed.

(** C7.  In a session that is not logged in (not yet, or no longer: see
    [logout_logs_out]) the guarded calls [_get], [_post] and [logout]
    raise NotLoggedInError, and so does every reading method; every
    operation whatsoever raises and leaves the session, the store and
    the wire exactly as they were, so no request goes out and the
    session is still not logged in, after one operation and after any
    sequence of them. *)
Theorem not_logged_in_blocks_every_operation (w : world) :
  _logged_in w = false ->
  (forall url, _get url w = (Raise NotLoggedInError, w)) /\
  (forall url data, _post url data w = (Raise NotLoggedInError, w)) /\
  logout w = (Raise NotLoggedInError, w) /\
  (forall o, straight_to_the_wire o = true ->
     run_op o w = (Raise NotLoggedInError, w)) /\
  (forall o, exists e, run_op o w = (Raise e, w)) /\
  (forall l, run_ops l w = w /\ _logged_in (run_ops l w) = false /\
             sent (run_ops l w) = sent w).
Proof.
  intros Hw.
  assert (forall o, exists e, run_op o w = (Raise e, w)) as Hop.
  { intros o. apply halts_run_op, Hw. }
  repeat split.
  - intros url. apply (blocked_require_login _ w Hw).
  - intros url data. apply (blocked_require_login _ w Hw).
  - apply (blocked_require_login _ w Hw).
  - intros o Ho. apply (blocked_run_op o Ho w Hw).
  - exact Hop.
  - induction l as [|o l IH]; [reflexivity|].
    cbn. destruct (Hop o) as [e He]. rewrite He. exact IH.
  - induction l as [|o l IH]; [exact Hw|].
    cbn. destruct (Hop o) as [e He]. rewrite He. exact IH.
  - induction l as [|o l IH]; [reflexivity|].
    cbn. destruct (Hop o) as [e He]. rewrite He. exact IH.
Qed.

(** ** The paginated listing *)

Lemma one_page_ok (w : world) (url : string) (p c_status : Z) (r : response)
    (rest : list response) (es : list BangumiDummySubjectCollection) :
  _logged_in w = true -> inbox w = r :: rest -> page_ok c_status r es ->
  _get_dummy_colls_on_page url p c_status w =
  (Return es, with_wire rest (sent w ++ [page_request url p]) w).
Proof.
  intros Hin Hbox [H200 Hes]. unfold _get_dummy_colls_on_page.
  rewrite (bind_return _ _ _ _ _ (_get_logged_in w _ r rest Hin Hbox)).
  rewrite H200. cbn. unfold lift. rewrite Hes. reflexivity.
Qed.

Lemma one_page_refused (w : world) (url : string) (p c_status : Z)
    (r : response) (rest : list response) :
  _logged_in w = true -> inbox w = r :: rest -> status_code r <> 200%Z ->
  _get_dummy_colls_on_page url p c_status w =
  (Raise RequestFailedError, with_wire rest (sent w ++ [page_request url p]) w).
Proof.
  intros Hin Hbox Hbad. unfold _get_dummy_colls_on_page.
  rewrite (bind_return _ _ _ _ _ (_get_logged_in w _ r rest Hin Hbox)).
  apply Z.eqb_neq in Hbad. rewrite Hbad. reflexivity.
Qed.

(** The loop over the pages, when every page is served: by induction on
    the pages still to fetch, for any entries gathered so far. *)
Lemma collect_pages_all_ok (url : string) (c_status : Z) (ps : list Z) :
  forall (pages : list response)
         (entries : list (list BangumiDummySubjectCollection))
         (acc : list BangumiDummySubjectCollection) (w : world)
         (rest : list response),
    _logged_in w = true ->
    length pages = length ps ->
    inbox w = pages ++ rest ->
    Forall2 (page_ok c_status) pages entries ->
    collect_pages url c_status ps acc w =
    (Return (acc ++ concat entries),
     with_wire rest (sent w ++ map (page_request url) ps) w).
Proof.
  induction ps as [|p ps IH]; intros pages entries acc w rest Hin Hlen Hbox Hall.
  - destruct pages; [|discriminate]. inversion Hall; subst.
    cbn in *. rewrite !app_nil_r. unfold ret. subst rest.
    now destruct w.
  - destruct pages as [|r pages]; [discriminate|].
    inversion Hall as [|? es ? ess Hr Hrest]; subst.
    cbn [collect_pages].
    rewrite (bind_return _ _ _ _ _
               (one_page_ok w url p c_status r (pages ++ rest) es Hin Hbox Hr)).
    rewrite (IH pages ess (acc ++ es) _ rest); cbn; try assumption.
    + rewrite <- !app_assoc. reflexivity.
    + now injection Hlen.
    + reflexivity.
Qed.

Lemma page_range_length (n : Z) : length (page_range n) = Z.to_nat n.
Proof. unfold page_range. now rewrite length_map, length_seq. Qed.

Lemma c_status_map_range (c : Z) (slug : string) :
  c_status_map c = Some slug -> ((1 <=? c) && (c <? 6))%Z = true.
Proof.
  intros H. destruct c as [|p|p]; try discriminate.
  destruct p as [[[|p|]|[|p|]|]|[[|p|]|[|p|]|]|]; try discriminate;
    reflexivity.
Qed.

(** The listing method up to its loop, for arguments it accepts. *)
Lemma listing_until_loop (w : world) (sub_type slug : string) (c_status : Z)
    (user_id : option string) (r0 : response) (inbox' : list response) (n : Z) :
  _logged_in w = true ->
  In sub_type ["anime"; "book"; "game"; "real"] ->
  c_status_map c_status = Some slug ->
  inbox w = r0 :: inbox' ->
  get_n_pages (text r0) = Return n ->
  let url := listing_url w sub_type slug user_id in
  get_dummy_collections sub_type c_status user_id w =
  bind (collect_pages url c_status (page_range n) [])
       (fun dummy_colls =>
          let* self := gets session_id in
          ret (map (dm_with_session (Some self)) dummy_colls))
       (with_wire inbox' (sent w ++ [mkRequest GET url []]) w).
Proof.
  intros Hin Htype Hslug Hbox Hn url.
  unfold get_dummy_collections.
  apply existsb_string_in in Htype. rewrite Htype.
  rewrite (c_status_map_range _ _ Hslug). cbn [negb].
  unfold gets at 1. unfold bind at 1. cbv zeta. rewrite Hslug.
  unfold gets at 1. unfold bind at 1.
  fold (listing_url w sub_type slug user_id). fold url.
  rewrite (bind_return _ _ _ _ _ (_get_logged_in w url r0 inbox' Hin Hbox)).
  unfold lift at 1. unfold bind at 1. rewrite Hn. reflexivity.
Qed.

(** The loop when a page is refused after some were served: the
    requests up to and including the refused one have gone out, and
    the entries gathered so far are lost with the exception. *)
Lemma collect_pages_refused_at (url : string) (c_status : Z) (ps : list Z) :
  forall (pages : list response)
         (entries : list (list BangumiDummySubjectCollection))
         (acc : list BangumiDummySubjectCollection) (w : world)
         (bad : response) (rest : list response),
    _logged_in w = true ->
    length pages < length ps ->
    inbox w = pages ++ bad :: rest ->
    Forall2 (page_ok c_status) pages entries ->
    status_code bad <> 200%Z ->
    collect_pages url c_status ps acc w =
    (Raise RequestFailedError,
     with_wire rest
       (sent w ++ map (page_request url) (firstn (S (length pages)) ps)) w).
Proof.
  induction ps as [|p ps IH];
    intros pages entries acc w bad rest Hin Hlen Hbox Hall Hbad.
  - cbn in Hlen. lia.
  - destruct pages as [|r pages].
    + cbn [collect_pages].
      rewrite (bind_raise _ _ _ _ _
                 (one_page_refused w url p c_status bad rest Hin Hbox Hbad)).
      reflexivity.
    + inversion Hall as [|? es ? ess Hr Hrest]; subst.
      cbn [collect_pages].
      rewrite (bind_return _ _ _ _ _
                 (one_page_ok w url p c_status r (pages ++ bad :: rest) es
                    Hin Hbox Hr)).
      rewrite (IH pages ess _ _ bad rest); cbn in *; try assumption;
        [|lia|reflexivity].
      rewrite <- !app_assoc. reflexivity.
Qed.

Lemma firstn_seq_prefix (k : nat) :
  forall s m, k <= m -> firstn k (seq s m) = seq s k.
Proof.
  induction k as [|k IH]; intros s m Hk; [reflexivity|].
  destruct m as [|m]; [lia|]. cbn. f_equal. apply IH. lia.
Qed.

(** The requests of the loop, spelled out: page [k] is asked for at the
    address of the listing followed by [?page=k]. *)
Lemma page_requests_spelled_out (url : string) (l : list nat) :
  map (page_request url) (map Z.of_nat l) =
  map (fun k => mkRequest GET (url +:+ "?page=" +:+ str (Z.of_nat k)) []) l.
Proof. rewrite List.map_map. reflexivity. Qed.

Lemma c_status_map_in_range (c : Z) :
  (1 <= c <= 5)%Z ->
  c_status_map c =
  Some match c with
       | 1 => "wish" | 2 => "collect" | 3 => "do" | 4 => "on_hold"
       | _ => "dropped"
       end%Z.
Proof.
  intros H.
  assert (c = 1 \/ c = 2 \/ c = 3 \/ c = 4 \/ c = 5)%Z
    as [->|[->|[->|[->| ->]]]] by lia; reflexivity.
Qed.

(** C9.  A logged-in session lists the collections of a valid subject
    type and of a status from 1 to 5.  The first request goes to the
    address of the listing, [base/sub_type/list/user/slug]; its answer
    [r0] serves only to read the number [n] of pages, whatever its
    status.  Then page [k] is asked for at that address followed by
    [?page=k], for [k] = 1, 2, ... in increasing order, one request per
    page.  If the next [n] answers are pages served with status 200, the
    call returns the entries of page 1, then those of page 2, and so on
    to page [n], each with the session attached, and the requests that
    went out are the discovery request followed by those for pages 1 to
    [n].  If instead, after [length pages] pages were served, the answer
    for the next page has a status other than 200, the call raises
    RequestFailedError right there: it returns no list, no later page
    is asked for, and the entries of the pages already served are
    lost. *)
Theorem listing_concatenates_pages_1_to_n (w : world)
    (sub_type : string) (c_status : Z) (user_id : option string)
    (r0 : response) (n : Z) :
  _logged_in w = true ->
  In sub_type ["anime"; "book"; "game"; "real"] ->
  (1 <= c_status <= 5)%Z ->
  get_n_pages (text r0) = Return n ->
  let user := match user_id with
              | Some u => if String.eqb u EmptyString then _user_id w else u
              | None => _user_id w
              end in
  let slug := match c_status with
              | 1 => "wish" | 2 => "collect" | 3 => "do" | 4 => "on_hold"
              | _ => "dropped"
              end%Z in
  let url := _base_url w +:+ "/" +:+ sub_type +:+ "/list/" +:+ user +:+ "/"
             +:+ slug in
  let fetch := fun k : nat =>
                 mkRequest GET (url +:+ "?page=" +:+ str (Z.of_nat k)) [] in
  let served := fun (r : response) (es : list BangumiDummySubjectCollection) =>
                  status_code r = 200%Z /\ page_entries r c_status = Return es in
  (forall pages entries rest,
     inbox w = r0 :: pages ++ rest ->
     length pages = Z.to_nat n ->
     Forall2 served pages entries ->
     get_dummy_collections sub_type c_status user_id w =
     (Return (map (fun d => mkDummy (dm_subject d) (dm_c_status d)
                              (Some (session_id w)))
                  (concat entries)),
      with_wire rest
        (sent w ++ mkRequest GET url [] :: map fetch (seq 1 (Z.to_nat n))) w)) /\
  (forall pages entries bad rest,
     inbox w = r0 :: pages ++ bad :: rest ->
     length pages < Z.to_nat n ->
     Forall2 served pages entries ->
     status_code bad <> 200%Z ->
     get_dummy_collections sub_type c_status user_id w =
     (Raise RequestFailedError,
      with_wire rest
        (sent w ++ mkRequest GET url [] ::
                   map fetch (seq 1 (S (length pages)))) w)).
Proof.
  intros Hin Htype Hrange Hn user slug url fetch served.
  pose proof (c_status_map_in_range c_status Hrange) as Hslug.
  fold slug in Hslug.
  split.
  - intros pages entries rest Hbox Hlen Hall.
    rewrite (listing_until_loop w sub_type slug c_status user_id r0
               (pages ++ rest) n Hin Htype Hslug Hbox Hn).
    change (listing_url w sub_type slug user_id) with url.
    erewrite bind_return.
    2:{ apply (collect_pages_all_ok url c_status (page_range n) pages entries
                 [] _ rest); cbn; try assumption; try reflexivity.
        now rewrite page_range_length. }
    unfold page_range. rewrite page_requests_spelled_out.
    cbn. unfold ret. rewrite <- app_assoc. reflexivity.
  - intros pages entries bad rest Hbox Hlen Hall Hbad.
    rewrite (listing_until_loop w sub_type slug c_status user_id r0
               (pages ++ bad :: rest) n Hin Htype Hslug Hbox Hn).
    change (listing_url w sub_type slug user_id) with url.
    erewrite bind_raise.
    2:{ apply (collect_pages_refused_at url c_status (page_range n) pages
                 entries [] _ bad rest); cbn; try assumption;
          try reflexivity.
        now rewrite page_range_length. }
    unfold page_range. rewrite firstn_map, firstn_seq_prefix by lia.
    rewrite page_requests_spelled_out.
    cbn. rewrite <- app_assoc. reflexivity.
Qed.

(** ** Where the watched count comes from *)



























(** * Further properties of the code *)

(** ** What follows the last separator *)

Lemma str_app_cons (x : ascii) (a b : string) :
  String x a +:+ b = String x (a +:+ b).
Proof. reflexivity. Qed.

Lemma str_app_nil_l (b : string) : EmptyString +:+ b = b.
Proof. reflexivity. Qed.

Lemma str_app_assoc (a b c : string) : (a +:+ b) +:+ c = a +:+ b +:+ c.
Proof.
  induction a as [|x a IH]; [reflexivity|].
  rewrite !str_app_cons. now f_equal.
Qed.

Lemma str_app_nil_r (a : string) : a +:+ EmptyString = a.
Proof.
  induction a as [|x a IH]; [reflexivity|].
  rewrite str_app_cons. now f_equal.
Qed.

Lemma occurs_app (c : ascii) (a b : string) :
  occurs c (a +:+ b) = occurs c a || occurs c b.
Proof.
  induction a as [|x a IH]; [reflexivity|].
  rewrite str_app_cons. cbn [occurs]. rewrite IH. apply orb_assoc.
Qed.

Lemma last_segment_aux_clean (sep : ascii) (s : string) :
  forall acc, occurs sep acc = false ->
              occurs sep (last_segment_aux sep s acc) = false.
Proof.
  induction s as [|c s IH]; intros acc Hacc; cbn [last_segment_aux];
    [exact Hacc|].
  destruct (Ascii.eqb c sep) eqn:Hc.
  - apply IH. reflexivity.
  - apply IH. rewrite occurs_app, Hacc. cbn [occurs orb]. now rewrite Hc.
Qed.

Lemma last_segment_aux_suffix (sep : ascii) (s : string) :
  forall acc, exists pre,
    acc +:+ s = pre +:+ last_segment_aux sep s acc /\
    (pre = EmptyString \/ exists p, pre = p +:+ String sep EmptyString).
Proof.
  induction s as [|c s IH]; intros acc; cbn [last_segment_aux].
  - exists EmptyString. split; [apply str_app_nil_r | now left].
  - destruct (Ascii.eqb_spec c sep) as [->|Hne].
    + destruct (IH EmptyString) as (pre & Heq & Hpre).
      rewrite str_app_nil_l in Heq.
      exists (acc +:+ String sep EmptyString +:+ pre). split.
      * rewrite !str_app_assoc, str_app_cons, str_app_nil_l.
        now rewrite <- Heq.
      * right. destruct Hpre as [->|[p ->]].
        -- exists acc. now rewrite str_app_cons, str_app_nil_r.
        -- exists (acc +:+ String sep EmptyString +:+ p).
           now rewrite !str_app_assoc.
    + destruct (IH (acc +:+ String c EmptyString)) as (pre & Heq & Hpre).
      exists pre. split; [|exact Hpre].
      rewrite <- Heq, str_app_assoc. reflexivity.
Qed.

Lemma last_segment_clean (sep : ascii) (s : string) :
  occurs sep (last_segment sep s) = false.
Proof. apply last_segment_aux_clean. reflexivity. Qed.

Lemma last_segment_suffix (sep : ascii) (s : string) :
  exists pre, s = pre +:+ last_segment sep s /\
    (pre = EmptyString \/ exists p, pre = p +:+ String sep EmptyString).
Proof. apply (last_segment_aux_suffix sep s EmptyString). Qed.

(** X1.  When [get_user_id_from_soup] returns a user id, the page has an
    element of class [idBadgerNeue] holding an element of class [avatar]
    with an [href]; the id is the part of that [href] after its last
    slash (the whole [href] if it has none), and so holds no slash. *)
Theorem user_id_is_last_path_segment (soup : node) (uid : string) :
  get_user_id_from_soup soup = Return uid ->
  exists badge avatar href pre,
    find_class soup "idBadgerNeue" = Some badge /\
    find_class badge "avatar" = Some avatar /\
    attr avatar "href" = Some href /\
    href = pre +:+ uid /\
    (pre = EmptyString \/ exists p, pre = p +:+ "/") /\
    occurs "/" uid = false.
Proof.
  unfold get_user_id_from_soup. intros H.
  destruct (find_class soup "idBadgerNeue") as [badge|] eqn:Hb; [|discriminate].
  destruct (find_class badge "avatar") as [avatar|] eqn:Ha; [|discriminate].
  destruct (attr avatar "href") as [href|] eqn:Hh; [|discriminate].
  injection H as <-.
  destruct (last_segment_suffix "/" href) as (pre & Heq & Hpre).
  exists badge, avatar, href, pre.
  repeat split; try reflexivity; try assumption.
  apply last_segment_clean.
Qed.

(** ** The verdict on a response *)

(** X2.  [check_response] never looks at the body of a response whose
    status is not 200: the verdict is False.  On a 200 response the
    verdict is True when a user id can be read off the page and False
    when the page has the id badge but no avatar in it; when the page
    has no id badge at all the AttributeError of the extractor is not
    caught and comes out of [check_response]. *)
Theorem check_response_verdicts (r : response) :
  (status_code r <> 200%Z -> check_response r = Return false) /\
  (status_code r = 200%Z ->
   (forall uid, get_user_id_from_html (text r) = Return uid ->
                check_response r = Return true) /\
   (forall badge,
      find_class (BeautifulSoup (text r)) "idBadgerNeue" = Some badge ->
      find_class badge "avatar" = None ->
      check_response r = Return false) /\
   (find_class (BeautifulSoup (text r)) "idBadgerNeue" = None ->
    check_response r = Raise AttributeError)).
Proof.
  unfold check_response. split.
  - intros Hne. apply Z.eqb_neq in Hne. now rewrite Hne.
  - intros ->. cbn. repeat split.
    + intros uid ->. reflexivity.
    + intros badge Hb Ha. unfold get_user_id_from_html, get_user_id_from_soup.
      now rewrite Hb, Ha.
    + intros Hb. unfold get_user_id_from_html, get_user_id_from_soup.
      now rewrite Hb.
Qed.

(** ** The number of pages *)

Lemma omap_return {A B} (f : A -> outcome B) (l : list A) (ys : list B) :
  omap f l = Return ys -> Forall2 (fun x y => f x = Return y) l ys.
Proof.
  revert ys. induction l as [|x l IH]; intros ys H; cbn in H.
  - injection H as <-. constructor.
  - destruct (f x) as [y|e] eqn:Hx; [|discriminate]. cbn in H.
    destruct (omap f l) as [ys'|e]; [|discriminate]. cbn in H.
    injection H as <-. constructor; [exact Hx | now apply IH].
Qed.

Lemma fold_max_bounds (l : list Z) :
  forall x : Z,
    (x <= fold_left Z.max l x)%Z /\
    (forall y, In y l -> (y <= fold_left Z.max l x)%Z) /\
    (fold_left Z.max l x = x \/ In (fold_left Z.max l x) l).
Proof.
  induction l as [|a l IH]; intros x; cbn.
  - repeat split; [lia | intros y [] | now left].
  - destruct (IH (Z.max x a)) as (H1 & H2 & H3). repeat split.
    + lia.
    + intros y [<-|Hy]; [lia | now apply H2].
    + destruct H3 as [H3|H3]; [|right; now right].
      destruct (Z.max_spec x a) as [[_ Hm]|[_ Hm]].
      * right. left. now rewrite H3.
      * left. now rewrite H3.
Qed.

Lemma py_max_bounds (l : list Z) (n : Z) :
  py_max l = Return n -> In n l /\ forall y, In y l -> (y <= n)%Z.
Proof.
  destruct l as [|x l]; cbn; [discriminate|]. intros H. injection H as <-.
  destruct (fold_max_bounds l x) as (H1 & H2 & H3). split.
  - destruct H3 as [->|H3]; [now left | now right].
  - intros y [<-|Hy]; [exact H1 | now apply H2].
Qed.

(** X3.  When [get_n_pages] returns [n], the page has a pager.  Either
    the pager has no page links and [n] is 1, or it has a current-page
    mark that reads as a number and every link reads as a page number,
    and [n] is the largest of these numbers: it is one of them and none
    of them exceeds it. *)
Theorem n_pages_is_the_largest_page_number (html : string) (n : Z) :
  get_n_pages html = Return n ->
  exists mp,
    find_id (BeautifulSoup html) "multipage" = Some mp /\
    ((find_all_class mp "p" = [] /\ n = 1) \/
     (exists cur cur_page numbers,
        find_class mp "p_cur" = Some cur /\
        py_int (node_text cur) = Some cur_page /\
        Forall2 (fun p k => link_page p = Return k)
                (find_all_class mp "p") numbers /\
        In n (numbers ++ [cur_page]) /\
        forall k, In k (numbers ++ [cur_page]) -> k <= n))%Z.
Proof.
  unfold get_n_pages. intros H.
  destruct (find_id (BeautifulSoup html) "multipage") as [mp|] eqn:Hmp;
    [|discriminate].
  exists mp. split; [reflexivity|].
  destruct (find_all_class mp "p") as [|p0 ps] eqn:Hps.
  - left. split; [reflexivity|]. now injection H.
  - right.
    destruct (find_class mp "p_cur") as [cur|] eqn:Hcur; [|discriminate].
    unfold int_of at 1 in H.
    destruct (py_int (node_text cur)) as [cur_page|] eqn:Hint;
      [|discriminate].
    cbn [obind] in H.
    fold link_page in H.
    destruct (omap link_page (p0 :: ps)) as [numbers|e] eqn:Hnum;
      [|discriminate].
    cbn [obind] in H.
    exists cur, cur_page, numbers.
    destruct (py_max_bounds _ _ H) as [Hin Hmax].
    repeat split; try assumption; try reflexivity.
    now apply omap_return.
Qed.

(** X4.  A listing page without a pager element cannot be listed: for
    valid arguments, in a session that is logged in, when the answer to
    the discovery request has no element [multipage],
    [get_dummy_collections] raises AttributeError after that one
    request. *)
Theorem listing_without_pager_raises (w : world) (sub_type slug : string)
    (c_status : Z) (user_id : option string) (r0 : response)
    (rest : list response) :
  _logged_in w = true ->
  In sub_type ["anime"; "book"; "game"; "real"] ->
  c_status_map c_status = Some slug ->
  inbox w = r0 :: rest ->
  find_id (BeautifulSoup (text r0)) "multipage" = None ->
  get_dummy_collections sub_type c_status user_id w =
  (Raise AttributeError,
   with_wire rest
     (sent w ++ [mkRequest GET (listing_url w sub_type slug user_id) []]) w).
Proof.
  intros Hin Htype Hslug Hbox Hnone.
  unfold get_dummy_collections.
  apply existsb_string_in in Htype. rewrite Htype.
  rewrite (c_status_map_range _ _ Hslug). cbn [negb].
  unfold gets at 1. unfold bind at 1. cbv zeta. rewrite Hslug.
  unfold gets at 1. unfold bind at 1.
  fold (listing_url w sub_type slug user_id).
  rewrite (bind_return _ _ _ _ _ (_get_logged_in w _ r0 rest Hin Hbox)).
  unfold lift at 1. unfold bind at 1. unfold get_n_pages. rewrite Hnone.
  reflexivity.
Qed.

(** X5.  [get_dummy_collections] checks its arguments before anything
    else: a subject type other than the four known ones, or a status
    outside 1..5, raises ValueError and leaves the session, the store
    and the wire as they were, logged in or not. *)
Theorem listing_arguments_checked_first (w : world) (sub_type : string)
    (c_status : Z) (user_id : option string) :
  ~ In sub_type ["anime"; "book"; "game"; "real"] \/
  (c_status < 1 \/ 5 < c_status)%Z ->
  get_dummy_collections sub_type c_status user_id w = (Raise ValueError, w).
Proof.
  intros Hbad. unfold get_dummy_collections.
  destruct (existsb (String.eqb sub_type) ["anime"; "book"; "game"; "real"])
    eqn:Ht; cbn [negb]; [|reflexivity].
  destruct Hbad as [Hbad|Hbad].
  - apply existsb_string_in in Ht. contradiction.
  - assert (((1 <=? c_status) && (c_status <? 6))%Z = false) as ->.
    { apply andb_false_iff. destruct Hbad; [left | right]; lia. }
    reflexivity.
Qed.

(** X6.  When the discovery page announces no page at all (a count of
    zero or less), [get_dummy_collections] returns the empty list and
    has sent the discovery request only. *)
Theorem listing_of_no_page_is_empty (w : world) (sub_type slug : string)
    (c_status : Z) (user_id : option string) (r0 : response)
    (rest : list response) (n : Z) :
  _logged_in w = true ->
  In sub_type ["anime"; "book"; "game"; "real"] ->
  c_status_map c_status = Some slug ->
  inbox w = r0 :: rest ->
  get_n_pages (text r0) = Return n ->
  (n <= 0)%Z ->
  get_dummy_collections sub_type c_status user_id w =
  (Return [],
   with_wire rest
     (sent w ++ [mkRequest GET (listing_url w sub_type slug user_id) []]) w).
Proof.
  intros Hin Htype Hslug Hbox Hn Hle.
  rewrite (listing_until_loop w sub_type slug c_status user_id r0 rest n
             Hin Htype Hslug Hbox Hn).
  unfold page_range. replace (Z.to_nat n) with 0 by lia. reflexivity.
Qed.

(** ** Writes, step by step *)

(** X7.  When the verdict on the answer to a removal cannot be given
    because [check_response] itself raises, [remove_collection] raises
    the same exception after the request has gone out, and the local
    [c_status] is not cleared: the store is as it was. *)
Theorem remove_keeps_status_when_verdict_raises (w : world) (a : addr)
    (r : response) (rest : list response) (e : exn) :
  _logged_in w = true ->
  inbox w = r :: rest ->
  check_response r = Raise e ->
  (forall sc, sub_colls w !! a = Some sc ->
     remove_collection (SubColl a) w =
     (Raise e,
      with_wire rest (sent w ++ [mkRequest GET (remove_sub_url w sc) []]) w)) /\
  (forall ec, ep_colls w !! a = Some ec ->
     remove_collection (EpColl a) w =
     (Raise e,
      with_wire rest (sent w ++ [mkRequest GET (remove_ep_url w ec) []]) w)).
Proof.
  intros Hin Hbox Hcheck. split.
  - intros sc Hsc. unfold remove_collection.
    rewrite (bind_return _ _ _ _ _ (deref_sub_some _ _ _ Hsc)).
    apply bind_raise. unfold _remove_sub_collection, gets.
    unfold bind at 1 2.
    rewrite (bind_return _ _ _ _ _ (_get_logged_in w _ r rest Hin Hbox)).
    unfold lift. now rewrite Hcheck.
  - intros ec Hec. unfold remove_collection.
    rewrite (bind_return _ _ _ _ _ (deref_ep_some _ _ _ Hec)).
    apply bind_raise. unfold _remove_ep_collection, gets.
    unfold bind at 1 2.
    rewrite (bind_return _ _ _ _ _ (_get_logged_in w _ r rest Hin Hbox)).
    unfold lift. now rewrite Hcheck.
Qed.

(** X8.  Submitting a subject collection whose status is legal sends one
    POST, the form with the status, the rating (empty when there is
    none or it is 0), the tags joined by spaces and the comment, to the
    subject's update address; the result is the verdict of
    [check_response] on the answer, and nothing in the store changes,
    whatever the verdict: the episode collections it contains are not
    submitted. *)
Theorem subject_submission_is_one_form (w : world) (a : addr)
    (sc : BangumiSubjectCollection) (c : Z) (r : response)
    (rest : list response) :
  _logged_in w = true ->
  sub_colls w !! a = Some sc ->
  sc_c_status sc = Some c ->
  In c SUB_VALID_C_STATUS ->
  c <> 0%Z ->
  inbox w = r :: rest ->
  set_sub_collection (SubColl a) w =
  (check_response r,
   with_wire rest (sent w ++ [interest_request w sc c]) w).
Proof.
  intros Hin Hsc Hc Hvalid Hnz Hbox.
  unfold set_sub_collection.
  rewrite (bind_return _ _ _ _ _ (deref_sub_some _ _ _ Hsc)).
  rewrite Hc. cbn [truthy_int]. apply Z.eqb_neq in Hnz. rewrite Hnz.
  cbn [negb]. apply existsb_Z_in in Hvalid. rewrite Hvalid. cbn [negb].
  cbv zeta. unfold gets at 1 2. unfold bind at 1 2.
  assert (forall x : string,
            (if truthy_int (sc_rating sc)
             then match sc_rating sc with
                  | Some r0 => str r0
                  | None => EmptyString
                  end
             else EmptyString) =
            match sc_rating sc with
            | Some r0 => if (r0 =? 0)%Z then EmptyString else str r0
            | None => EmptyString
            end) as Hrating.
  { intros _. destruct (sc_rating sc) as [r0|]; [|reflexivity].
    cbn [truthy_int]. now destruct (r0 =? 0)%Z. }
  rewrite (Hrating EmptyString).
  rewrite (bind_return _ _ _ _ _ (_post_logged_in w _ _ r rest Hin Hbox)).
  reflexivity.
Qed.

Lemma mixed_parents_check (w : world) (parent : option addr) (l : list addr) :
  (forall e, In e l -> is_Some (ep_colls w !! e)) ->
  (exists e ec, In e l /\ ep_colls w !! e = Some ec /\
                is_same (ec_sub_collection ec) parent = false) ->
  for_each l (fun a =>
    let* ec := deref_ep a in
    if negb (is_same (ec_sub_collection ec) parent)
    then raise ValueError else ret tt) w = (Raise ValueError, w).
Proof.
  induction l as [|x l IH]; intros Hall (e & ec & He & Hec & Hdiff);
    [destruct He|].
  cbn [for_each]. destruct (Hall x) as [ecx Hx]; [now left|].
  destruct (is_same (ec_sub_collection ecx) parent) eqn:Hsame.
  - erewrite bind_return.
    2:{ rewrite (bind_return _ _ _ _ _ (deref_ep_some _ _ _ Hx)).
        rewrite Hsame. reflexivity. }
    apply IH.
    + intros e' He'. apply Hall. now right.
    + destruct He as [<-|He]; [congruence|]. eauto.
  - apply bind_raise.
    rewrite (bind_return _ _ _ _ _ (deref_ep_some _ _ _ Hx)).
    rewrite Hsame. reflexivity.
Qed.

(** X9.  The batch method refuses a batch before sending anything: an
    empty batch raises IndexError, and a batch in which some episode
    collection does not have the very parent of the first one raises
    ValueError.  The session, the store and the wire are untouched. *)
Theorem batch_refused_before_the_wire (w : world) :
  _set_watched_eps_in_sub [] w = (Raise IndexError, w) /\
  (forall first tl ec0,
     ep_colls w !! first = Some ec0 ->
     (forall e, In e tl -> is_Some (ep_colls w !! e)) ->
     (exists e ec, In e tl /\ ep_colls w !! e = Some ec /\
                   is_same (ec_sub_collection ec) (ec_sub_collection ec0) = false) ->
     _set_watched_eps_in_sub (first :: tl) w = (Raise ValueError, w)).
Proof.
  split; [reflexivity|].
  intros first tl ec0 Hfirst Hall (e & ec & He & Hec & Hdiff).
  unfold _set_watched_eps_in_sub.
  rewrite (bind_return _ _ _ _ _ (deref_ep_some _ _ _ Hfirst)). cbv zeta.
  apply bind_raise. apply mixed_parents_check.
  - intros x [<-|Hx]; [eauto | now apply Hall].
  - exists e, ec. split; [now right | now split].
Qed.

(** X10.  The single-episode write, for a legal status other than the
    directive, in a session that is logged in, sends one GET to the
    status address.  Without a parent the result is the verdict on the
    answer and nothing local changes.  With a parent whose count can be
    read off the answer, the parent's count is overwritten and the
    result is the verdict.  With a parent and an answer from which no
    count can be read, the extractor's exception comes out after the
    request has gone out and nothing local changes.  In no case does the
    episode collection's own record change. *)
Theorem single_episode_write_step_by_step (w : world) (a : addr)
    (ec : BangumiEpisodeCollection) (c : string) (r : response)
    (rest : list response) :
  _logged_in w = true ->
  ep_colls w !! a = Some ec ->
  ec_c_status ec = Some c ->
  c <> EmptyString -> In c EP_VALID_C_STATUS -> c <> "watched_up_to" ->
  inbox w = r :: rest ->
  let w1 := with_wire rest (sent w ++ [status_request w ec c]) w in
  (ec_sub_collection ec = None ->
   set_ep_collection (EpColl a) w = (check_response r, w1)) /\
  (forall s sc n,
     ec_sub_collection ec = Some s -> sub_colls w !! s = Some sc ->
     get_n_watched_eps_from_soup (BeautifulSoup (text r)) = Return n ->
     set_ep_collection (EpColl a) w =
     (check_response r,
      with_sub_colls (<[s := sc_with_n_watched_eps (Some n) sc]> (sub_colls w))
                     w1)) /\
  (forall s e,
     ec_sub_collection ec = Some s ->
     get_n_watched_eps_from_soup (BeautifulSoup (text r)) = Raise e ->
     set_ep_collection (EpColl a) w = (Raise e, w1)).
Proof.
  intros Hin Hec Hc Hnz Hvalid Hnd Hbox w1.
  assert (forall k : response -> M bool,
            set_ep_collection (EpColl a) w =
            bind (_get (rq_url (status_request w ec c)))
                 (fun response =>
                    let* _ :=
                      match ec_sub_collection ec with
                      | Some s =>
                          let* n_watched_eps :=
                            lift (get_n_watched_eps_from_soup
                                    (BeautifulSoup (text response))) in
                          update_sub s (sc_with_n_watched_eps (Some n_watched_eps))
                      | None => ret tt
                      end in
                    lift (check_response response)) w) as Hstart.
  { intros _. unfold set_ep_collection.
    rewrite (bind_return _ _ _ _ _ (deref_ep_some _ _ _ Hec)).
    rewrite Hc. cbn [truthy_str].
    apply String.eqb_neq in Hnz. rewrite Hnz. cbn [negb].
    apply existsb_string_in in Hvalid. rewrite Hvalid. cbn [negb].
    apply String.eqb_neq in Hnd. rewrite Hnd. reflexivity. }
  rewrite (Hstart (fun _ => ret true)).
  rewrite (bind_return _ _ _ _ _ (_get_logged_in w _ r rest Hin Hbox)).
  fold w1. repeat split.
  - intros ->. reflexivity.
  - intros s sc n -> Hsc Hn.
    unfold lift at 1. unfold bind at 1 2. rewrite Hn.
    rewrite (update_sub_some w1 s sc _ Hsc). reflexivity.
  - intros s e -> He.
    unfold lift at 1. unfold bind at 1 2. rewrite He. reflexivity.
Qed.

(** ** The life of a session *)

(** X11.  [logout] can be used once.  In a session that is logged in it
    clears the flag first, then sends the logout request and closes the
    connection; whatever came of a call to [logout] (also when the
    transport failed, or the session was not logged in to begin with),
    the session is not logged in afterwards, a further [logout] raises
    NotLoggedInError, and every operation raises and changes nothing. *)
Theorem logout_is_single_use (w : world) :
  (forall r rest,
     _logged_in w = true -> inbox w = r :: rest ->
     logout w =
     (Return tt,
      with_closed true
        (with_wire rest (sent w ++ [logout_request w])
           (with_logged_in false w)))) /\
  _logged_in (snd (logout w)) = false /\
  logout (snd (logout w)) = (Raise NotLoggedInError, snd (logout w)) /\
  (forall o, exists e,
     run_op o (snd (logout w)) = (Raise e, snd (logout w))).
Proof.
  pose proof (logout_logs_out w) as Hout. repeat split.
  - intros r rest Hin Hbox. unfold logout, require_login. rewrite Hin.
    cbn [negb]. unfold bind, modify, gets, transport. cbn. rewrite Hbox.
    reflexivity.
  - exact Hout.
  - apply (blocked_require_login _ _ Hout).
  - intros o. apply halts_run_op, Hout.
Qed.

Lemma valid_domain_has_no_scheme (domain : string) :
  In domain _VALID_DOMAIN -> String.prefix "http://" domain = false.
Proof.
  intros [<-|[<-|[<-|[]]]]; reflexivity.
Qed.

Lemma init_until_login (w : world) (email password domain : string) :
  In domain _VALID_DOMAIN ->
  BangumiSession_init email password domain w =
  bind (_login email password)
       (fun _ =>
          let* gh := _get_gh in
          let* _ := modify (with_gh gh) in
          let* uid := _get_user_id in
          modify (with_user_id uid))
       (with_base_url_email ("http://" +:+ domain) email w).
Proof.
  intros Hd. unfold BangumiSession_init.
  rewrite (valid_domain_has_no_scheme _ Hd).
  apply existsb_string_in in Hd. rewrite Hd. reflexivity.
Qed.

Lemma login_step (w0 : world) (email password : string) :
  let rq := mkRequest POST (_base_url w0 +:+ "/FollowTheRabbit")
              [("email", email); ("password", password);
               ("loginsubmit", "登录")] in
  _login email password w0 =
  match inbox w0 with
  | [] => (Raise ConnectionError, with_wire [] (sent w0 ++ [rq]) w0)
  | r :: rest =>
      if contains welcome_back (html_of r)
      then (Return tt, with_logged_in true (with_wire rest (sent w0 ++ [rq]) w0))
      else (Raise LoginFailedError, with_wire rest (sent w0 ++ [rq]) w0)
  end.
Proof.
  unfold _login, gets, bind, transport, modify, raise.
  destruct (inbox w0) as [|r rest]; [reflexivity|].
  destruct (contains welcome_back (html_of r)); reflexivity.
Qed.

(** X12.  Constructing a session for a domain other than the three
    known ones raises ValueError before anything is set or sent; and
    for each of the three the base address is [http://] followed by the
    domain, so the first request of the constructor is the login form
    posted to [/FollowTheRabbit] under that address. *)
Theorem constructor_checks_the_domain (w : world)
    (email password domain : string) :
  (~ In domain _VALID_DOMAIN ->
   BangumiSession_init email password domain w = (Raise ValueError, w)) /\
  (In domain _VALID_DOMAIN ->
   exists more,
     sent (snd (BangumiSession_init email password domain w)) =
     sent w ++ login_request domain email password :: more).
Proof.
  split.
  - intros Hd. unfold BangumiSession_init.
    rewrite (existsb_string_out _ _ Hd). reflexivity.
  - intros Hd. rewrite (init_until_login w email password domain Hd).
    set (w0 := with_base_url_email ("http://" +:+ domain) email w).
    assert (respects sent_grows
              (let* gh := _get_gh in
               let* _ := modify (with_gh gh) in
               let* uid := _get_user_id in
               modify (with_user_id uid))) as Hrest.
    { unfold _get_gh, _get_user_id.
      respects_with sent_grows_refl sent_grows_trans
        ltac:(first [ apply sent_grows_get
                    | apply sent_grows_modify; reflexivity ]). }
    pose proof (login_step w0 email password) as Hlogin. cbv zeta in Hlogin.
    destruct (inbox w0) as [|r rest].
    + rewrite (bind_raise _ _ _ _ _ Hlogin). exists []. reflexivity.
    + destruct (contains welcome_back (html_of r)).
      * rewrite (bind_return _ _ _ _ _ Hlogin).
        match goal with
        | |- context [snd (?k ?w1)] => destruct (Hrest w1) as [more Hmore]
        end.
        exists more. rewrite Hmore. cbn. rewrite <- app_assoc. reflexivity.
      * rewrite (bind_raise _ _ _ _ _ Hlogin). exists []. reflexivity.
Qed.

(** X13.  When the page that answers the login form does not contain
    the welcome-back sentence, the constructor raises LoginFailedError:
    the login form is the only request that has gone out, and the
    session is not logged in. *)
Theorem constructor_fails_without_welcome (w : world)
    (email password domain : string) (r : response) (rest : list response) :
  In domain _VALID_DOMAIN ->
  inbox w = r :: rest ->
  contains welcome_back (html_of r) = false ->
  BangumiSession_init email password domain w =
  (Raise LoginFailedError,
   with_wire rest (sent w ++ [login_request domain email password])
     (with_base_url_email ("http://" +:+ domain) email w)) /\
  _logged_in (snd (BangumiSession_init email password domain w)) = false.
Proof.
  intros Hd Hbox Hno.
  assert (BangumiSession_init email password domain w =
          (Raise LoginFailedError,
           with_wire rest (sent w ++ [login_request domain email password])
             (with_base_url_email ("http://" +:+ domain) email w))) as Hrun.
  { rewrite (init_until_login w email password domain Hd).
    apply bind_raise. rewrite login_step. cbn [inbox with_base_url_email].
    rewrite Hbox, Hno. reflexivity. }
  split; [exact Hrun | now rewrite Hrun].
Qed.

(** X14.  When the login page welcomes the user back, the home page
    fetched next holds a logout link, and the home page fetched after
    it gives a user id, the constructor returns a session that is
    logged in, with the token of the logout link as [_gh] and that user
    id, after exactly three requests: the login form and the home page
    twice.  The store is untouched. *)
Theorem constructor_logs_in_with_three_requests (w : world)
    (email password domain gh uid : string) (r r_gh r_uid : response)
    (rest : list response) :
  In domain _VALID_DOMAIN ->
  inbox w = r :: r_gh :: r_uid :: rest ->
  contains welcome_back (html_of r) = true ->
  re_search ("<a href=" +:+ dq +:+ ("http://" +:+ domain) +:+
             "/logout/(.*?)" +:+ dq +:+ ">") (text r_gh) = Some gh ->
  get_user_id_from_html (text r_uid) = Return uid ->
  exists w',
    BangumiSession_init email password domain w = (Return tt, w') /\
    _logged_in w' = true /\ _gh w' = gh /\ _user_id w' = uid /\
    _base_url w' = "http://" +:+ domain /\ _email w' = email /\
    sent w' = sent w ++ [login_request domain email password;
                         home_request domain; home_request domain] /\
    inbox w' = rest /\
    sub_colls w' = sub_colls w /\ ep_colls w' = ep_colls w.
Proof.
  intros Hd Hbox Hyes Hgh Huid.
  rewrite (init_until_login w email password domain Hd).
  set (w0 := with_base_url_email ("http://" +:+ domain) email w).
  pose proof (login_step w0 email password) as Hlogin. cbv zeta in Hlogin.
  cbn [inbox w0 with_base_url_email] in Hlogin. unfold w0 in Hlogin.
  cbn [inbox with_base_url_email] in Hlogin.
  rewrite Hbox, Hyes in Hlogin. fold w0 in Hlogin.
  rewrite (bind_return _ _ _ _ _ Hlogin).
  set (w1 := with_logged_in true _).
  assert (_get_gh w1 =
          (Return gh,
           with_wire (r_uid :: rest) (sent w1 ++ [home_request domain]) w1))
    as Hgetgh.
  { unfold _get_gh, gets. unfold bind at 1.
    erewrite bind_return;
      [|apply (_get_logged_in w1 _ r_gh (r_uid :: rest)); reflexivity].
    cbn [_base_url w1 w0 with_logged_in with_wire with_base_url_email].
    rewrite Hgh. reflexivity. }
  rewrite (bind_return _ _ _ _ _ Hgetgh).
  unfold modify at 1. unfold bind at 1.
  set (w2 := with_gh gh _).
  assert (_get_user_id w2 =
          (Return uid, with_wire rest (sent w2 ++ [home_request domain]) w2))
    as Hgetuid.
  { unfold _get_user_id, gets. unfold bind at 1.
    erewrite bind_return;
      [|apply (_get_logged_in w2 _ r_uid rest); reflexivity].
    unfold lift. rewrite Huid. reflexivity. }
  rewrite (bind_return _ _ _ _ _ Hgetuid).
  eexists. split; [reflexivity|].
  cbn. rewrite <- !app_assoc. repeat split; reflexivity.
Qed.

(** ** What no operation does to a stored collection *)

Lemma identity_kept_refl (w : world) : identity_kept w w.
Proof. split; intros a x H; eauto. Qed.

Lemma identity_kept_trans (w1 w2 w3 : world) :
  identity_kept w1 w2 -> identity_kept w2 w3 -> identity_kept w1 w3.
Proof.
  intros [Hs12 He12] [Hs23 He23]. split.
  - intros a sc H. destruct (Hs12 a sc H) as (sc2 & H2 & E2).
    destruct (Hs23 a sc2 H2) as (sc3 & H3 & E3).
    exists sc3. split; [exact H3 | congruence].
  - intros a ec H. destruct (He12 a ec H) as (ec2 & H2 & E2).
    destruct (He23 a ec2 H2) as (ec3 & H3 & E3).
    exists ec3. split; [exact H3 | congruence].
Qed.

Lemma identity_kept_same (w w' : world) :
  sub_colls w' = sub_colls w -> ep_colls w' = ep_colls w -> identity_kept w w'.
Proof. intros Hs He. split; intros a x H; rewrite ?Hs, ?He; eauto. Qed.

Lemma identity_kept_transport (rq : request) :
  respects identity_kept (transport rq).
Proof.
  intros w. unfold transport.
  destruct (inbox w); apply identity_kept_same; reflexivity.
Qed.

Lemma identity_kept_modify (f : world -> world) :
  (forall w, sub_colls (f w) = sub_colls w) ->
  (forall w, ep_colls (f w) = ep_colls w) ->
  respects identity_kept (modify f).
Proof. intros Hs He w. apply identity_kept_same; [apply Hs | apply He]. Qed.

Lemma identity_kept_update_sub a f :
  (forall sc, sc_subject (f sc) = sc_subject sc) ->
  respects identity_kept (update_sub a f).
Proof.
  intros Hf w. unfold update_sub, bind, deref_sub, modify.
  destruct (sub_colls w !! a) as [sca|] eqn:Ha; cbn;
    [|apply identity_kept_refl].
  split; cbn; [|eauto].
  intros b sc Hb. destruct (Nat.eq_dec b a) as [->|Hne].
  - rewrite lookup_insert_eq. exists (f sca). split; [reflexivity|].
    rewrite Hf. congruence.
  - rewrite lookup_insert_ne by congruence. eauto.
Qed.

Lemma identity_kept_update_ep a f :
  (forall ec, ec_episode (f ec) = ec_episode ec) ->
  respects identity_kept (update_ep a f).
Proof.
  intros Hf w. unfold update_ep, bind, deref_ep, modify.
  destruct (ep_colls w !! a) as [eca|] eqn:Ha; cbn;
    [|apply identity_kept_refl].
  split; cbn; [eauto|].
  intros b ec Hb. destruct (Nat.eq_dec b a) as [->|Hne].
  - rewrite lookup_insert_eq. exists (f eca). split; [reflexivity|].
    rewrite Hf. congruence.
  - rewrite lookup_insert_ne by congruence. eauto.
Qed.

Lemma identity_kept_alloc_sub sc : respects identity_kept (alloc_sub sc).
Proof.
  intros w. unfold alloc_sub. split; cbn; [|eauto].
  intros b scb Hb. exists scb. split; [|reflexivity].
  rewrite lookup_insert_ne; [exact Hb|].
  intros Heq. apply (is_fresh (dom (sub_colls w))).
  rewrite Heq. apply elem_of_dom. eauto.
Qed.

Lemma identity_kept_alloc_ep ec : respects identity_kept (alloc_ep ec).
Proof.
  intros w. unfold alloc_ep. split; cbn; [eauto|].
  intros b ecb Hb. exists ecb. split; [|reflexivity].
  rewrite lookup_insert_ne; [exact Hb|].
  intros Heq. apply (is_fresh (dom (ep_colls w))).
  rewrite Heq. apply elem_of_dom. eauto.
Qed.

Ltac identity_leaf :=
  first
    [ apply identity_kept_transport
    | apply identity_kept_alloc_sub
    | apply identity_kept_alloc_ep
    | apply identity_kept_update_sub; reflexivity
    | apply identity_kept_update_ep; reflexivity
    | apply identity_kept_modify; reflexivity ].

Ltac identity_steps :=
  respects_with identity_kept_refl identity_kept_trans identity_leaf.

Lemma identity_kept_alloc_eps l : respects identity_kept (alloc_eps l).
Proof.
  induction l as [|ec l IH]; cbn [alloc_eps].
  - identity_steps.
  - respects_with identity_kept_refl identity_kept_trans
      ltac:(first [exact IH | identity_leaf]).
Qed.

Lemma identity_kept_collect_pages url c ps :
  forall acc, respects identity_kept (collect_pages url c ps acc).
Proof.
  induction ps as [|p ps IH]; intros acc; cbn [collect_pages].
  - identity_steps.
  - unfold _get_dummy_colls_on_page, _get.
    respects_with identity_kept_refl identity_kept_trans
      ltac:(first [apply IH | identity_leaf]).
Qed.

Lemma identity_kept_run_op (o : op) : respects identity_kept (run_op o).
Proof.
  destruct o as [| | | | | | | | | |c|c|c|c| |]; try destruct c;
    unfold run_op, returning, set_collection, logout, get_subject, get_episode,
      get_episodes_for_sub, get_sub_collection,
      get_sub_collection_with_subject, get_ep_collection,
      get_ep_collection_with_episode, alloc_sub_coll, alloc_standalone_ep,
      set_sub_collection, set_ep_collection, get_ep_colls_up_to_this,
      _set_watched_eps_in_sub, set_ep_c_status,
      remove_collection, _remove_sub_collection,
      _remove_ep_collection, set_n_watched_eps, _set_n_watched_eps,
      get_dummy_collections, _get_sub_id_for_ep, _get_html_for_ep,
      _get_html_for_subject_main, _get_html_for_subject_eps, _get, _post;
    respects_with identity_kept_refl identity_kept_trans
      ltac:(first [ apply identity_kept_collect_pages
                  | apply identity_kept_alloc_eps
                  | identity_leaf ]).
Qed.

(** X15.  No operation of a session, and no sequence of operations,
    removes a collection from the store or changes which subject a
    stored subject collection wraps or which episode a stored episode
    collection wraps: only the status-like fields and the links ever
    change. *)
Theorem operations_keep_identities (l : list op) (w : world) :
  identity_kept w (run_ops l w).
Proof.
  revert w. induction l as [|o l IH]; intros w; cbn [run_ops].
  - apply identity_kept_refl.
  - eapply identity_kept_trans; [apply identity_kept_run_op | apply IH].
Qed.

(** ** Walking up to the target *)

Lemma up_to_this_prefix (t : addr) (l : list addr) :
  exists post, l = up_to_this t l ++ post.
Proof.
  induction l as [|x l [post IH]]; [now exists []|].
  cbn [up_to_this]. destruct (ep_coll_eq x t).
  - exists l. reflexivity.
  - exists post. cbn. now f_equal.
Qed.

(** X16.  [get_ep_colls_up_to_this] on a stored episode collection whose
    parent is stored never fails and never changes anything.  What it
    returns is a prefix of the parent's sequence: when the target is in
    the sequence, the prefix that ends with the first occurrence of the
    target, so that the target is its last element and occurs nowhere
    else in it; when the target is not in the sequence, the whole
    sequence.  Without a parent it raises AttributeError. *)
Theorem walk_returns_a_prefix (w : world) (a : addr)
    (ec : BangumiEpisodeCollection) :
  ep_colls w !! a = Some ec ->
  (ec_sub_collection ec = None ->
   get_ep_colls_up_to_this a w = (Raise AttributeError, w)) /\
  (forall s sc,
     ec_sub_collection ec = Some s -> sub_colls w !! s = Some sc ->
     exists l post,
       get_ep_colls_up_to_this a w = (Return l, w) /\
       sc_ep_collections sc = l ++ post /\
       (In a (sc_ep_collections sc) ->
        exists pre, l = pre ++ [a] /\ ~ In a pre) /\
       (~ In a (sc_ep_collections sc) -> l = sc_ep_collections sc)).
Proof.
  intros Hec. split.
  - intros Hnone. unfold get_ep_colls_up_to_this.
    rewrite (bind_return _ _ _ _ _ (deref_ep_some _ _ _ Hec)).
    now rewrite Hnone.
  - intros s sc Hpar Hsc.
    destruct (up_to_this_prefix a (sc_ep_collections sc)) as [post Hpost].
    exists (up_to_this a (sc_ep_collections sc)), post. repeat split.
    + unfold get_ep_colls_up_to_this.
      rewrite (bind_return _ _ _ _ _ (deref_ep_some _ _ _ Hec)).
      rewrite Hpar.
      now rewrite (bind_return _ _ _ _ _ (deref_sub_some _ _ _ Hsc)).
    + exact Hpost.
    + intros Hin.
      destruct (first_occurrence a _ Hin) as (pre & post' & Hsplit & Hfirst).
      exists pre. split; [|exact Hfirst].
      rewrite Hsplit. now apply up_to_this_found.
    + intros Hout. now apply up_to_this_missing.
Qed.

(** ** The walk over episode ids *)

Lemma ids_up_to_found (t : string) (pre post : list BangumiEpisode)
    (ep : BangumiEpisode) :
  ep_id_ ep = t -> ~ In t (map ep_id_ pre) ->
  ids_up_to t (pre ++ ep :: post) = map ep_id_ pre ++ [t].
Proof.
  intros Hep. induction pre as [|x pre IH]; intros Hn; cbn.
  - rewrite Hep, String.eqb_refl. reflexivity.
  - destruct (String.eqb_spec (ep_id_ x) t) as [Heq|Hne].
    + exfalso. apply Hn. now left.
    + f_equal. apply IH. intros Hin. apply Hn. now right.
Qed.

Lemma ids_up_to_missing (t : string) (eps : list BangumiEpisode) :
  ~ In t (map ep_id_ eps) -> ids_up_to t eps = map ep_id_ eps.
Proof.
  induction eps as [|x eps IH]; intros Hn; cbn; [reflexivity|].
  destruct (String.eqb_spec (ep_id_ x) t) as [Heq|Hne].
  - exfalso. apply Hn. now left.
  - f_equal. apply IH. intros Hin. apply Hn. now right.
Qed.

Lemma first_with_id (t : string) (eps : list BangumiEpisode) :
  In t (map ep_id_ eps) ->
  exists pre ep post,
    eps = pre ++ ep :: post /\ ep_id_ ep = t /\ ~ In t (map ep_id_ pre).
Proof.
  induction eps as [|x eps IH]; intros Hin; [destruct Hin|].
  destruct (String.eqb_spec (ep_id_ x) t) as [Heq|Hne].
  - exists [], x, eps. repeat split; [exact Heq | intros []].
  - destruct Hin as [Hx|Hin]; [contradiction|].
    destruct (IH Hin) as (pre & ep & post & -> & Hep & Hn).
    exists (x :: pre), ep, post. repeat split; [exact Hep|].
    intros [H|H]; [contradiction | now apply Hn].
Qed.

(** X17.  [get_ep_ids_up_to_this] returns the ids of the subject's
    episodes from the first one up to and including the first episode
    that carries the id of the given episode, in the subject's order;
    when no episode of the subject carries that id it returns the ids of
    all of them. *)
Theorem id_walk_stops_at_first_match (eps : list BangumiEpisode)
    (episode : BangumiEpisode) :
  (In (ep_id_ episode) (map ep_id_ eps) ->
   exists pre ep post,
     eps = pre ++ ep :: post /\ ep_id_ ep = ep_id_ episode /\
     ~ In (ep_id_ episode) (map ep_id_ pre) /\
     get_ep_ids_up_to_this eps episode =
     map ep_id_ pre ++ [ep_id_ episode]) /\
  (~ In (ep_id_ episode) (map ep_id_ eps) ->
   get_ep_ids_up_to_this eps episode = map ep_id_ eps).
Proof.
  unfold get_ep_ids_up_to_this. split.
  - intros Hin.
    destruct (first_with_id _ _ Hin) as (pre & ep & post & Hsplit & Hep & Hn).
    exists pre, ep, post. repeat split; try assumption.
    rewrite Hsplit. now apply ids_up_to_found.
  - apply ids_up_to_missing.
Qed.

Lemma walks_agree_aux (w : world) (a : addr) (l : list addr) :
  (forall x, In x l -> ep_id_ (episode_of w x) = ep_id_ (episode_of w a) ->
             x = a) ->
  map (fun e => ep_id_ (episode_of w e)) (up_to_this a l) =
  ids_up_to (ep_id_ (episode_of w a)) (episodes_of w l).
Proof.
  induction l as [|x l IH]; intros Hinj; [reflexivity|].
  cbn [up_to_this episodes_of map ids_up_to]. f_equal.
  unfold ep_coll_eq.
  destruct (Nat.eqb_spec x a) as [->|Hne].
  - now rewrite String.eqb_refl.
  - destruct (String.eqb_spec (ep_id_ (episode_of w x))
                              (ep_id_ (episode_of w a))) as [Heq|_].
    + exfalso. apply Hne, Hinj; [now left | exact Heq].
    + apply IH. intros y Hy. apply Hinj. now right.
Qed.

Lemma NoDup_map_injective {A B} (f : A -> B) (l : list A) (x y : A) :
  List.NoDup (map f l) -> In x l -> In y l -> f x = f y -> x = y.
Proof.
  induction l as [|z l IH]; intros Hnd Hx Hy Heq; [destruct Hx|].
  cbn in Hnd. apply List.NoDup_cons_iff in Hnd as [Hz Hnd].
  destruct Hx as [->|Hx], Hy as [->|Hy].
  - reflexivity.
  - exfalso. apply Hz. rewrite Heq. now apply in_map.
  - exfalso. apply Hz. rewrite <- Heq. now apply in_map.
  - now apply IH.
Qed.

(** X18.  The two walks agree.  For a target that is in the sequence of
    its parent, when no two episode collections of that sequence carry
    the same episode id, the episode ids of the batch derived by
    [get_ep_colls_up_to_this] are exactly what [get_ep_ids_up_to_this]
    returns for the target's episode over the episodes of the
    sequence. *)
Theorem collection_walk_agrees_with_id_walk (w : world) (a : addr)
    (seq : list addr) :
  In a seq ->
  List.NoDup (map (fun e => ep_id_ (episode_of w e)) seq) ->
  map (fun e => ep_id_ (episode_of w e)) (up_to_this a seq) =
  get_ep_ids_up_to_this (episodes_of w seq) (episode_of w a).
Proof.
  intros Hin Hnd. apply walks_agree_aux.
  intros x Hx Heq.
  apply (NoDup_map_injective (fun e => ep_id_ (episode_of w e)) seq x a Hnd
           Hx Hin Heq).
Qed.

(** ** Overriding the watched count *)

Lemma bind_outcome {A B} (m : M A) (k : A -> M B) (w w1 : world)
    (o : outcome A) :
  m w = (o, w1) -> bind m k w = bind (lift o) k w1.
Proof. intros H. unfold bind, lift. now rewrite H. Qed.

Lemma set_n_watched_eps_until_verdict (w : world) (a : addr)
    (sc : BangumiSubjectCollection) (n : Z) (r : response)
    (rest : list response) :
  _logged_in w = true ->
  sub_colls w !! a = Some sc ->
  sc_c_status sc <> Some 1%Z ->
  sc_n_watched_eps sc = Some n ->
  inbox w = r :: rest ->
  set_n_watched_eps a w =
  bind (lift (check_response r))
       (fun result : bool =>
          if result then
            let sub := sc_subject sc in
            let* html := _get_html_for_subject_eps (sub_id_ sub) in
            let* ecs := lift (ep_colls_for_sub_from_html sub html) in
            let* eas := alloc_eps ecs in
            let* _ := update_sub a (sc_with_ep_collections eas) in
            let* _ := for_each eas (fun e =>
                        let* sc' := deref_sub a in
                        let* _ := update_ep e (ec_with_session (sc_session sc')) in
                        update_ep e (ec_with_sub_collection (Some a))) in
            ret true
          else ret false)
       (with_wire rest (sent w ++ [watched_count_request w sc n]) w).
Proof.
  intros Hin Hsc Hn1 Hn Hbox. unfold set_n_watched_eps.
  rewrite (bind_return _ _ _ _ _ (deref_sub_some _ _ _ Hsc)). rewrite Hn.
  assert (forall (A : Type) (x y : A),
            match sc_c_status sc with
            | Some 1%Z => x
            | _ => y
            end = y) as Hskip.
  { intros A x y. destruct (sc_c_status sc) as [[|[p|p|]|p]|];
      try reflexivity. congruence. }
  rewrite Hskip.
  apply bind_outcome.
  unfold _set_n_watched_eps, gets. unfold bind at 1.
  now rewrite (bind_return _ _ _ _ _ (_post_logged_in w _ _ r rest Hin Hbox)).
Qed.

(** X19.  [set_n_watched_eps] on a subject collection with a count and a
    status other than 1 posts the count.  When the verdict on the answer
    is False, False is returned; when the verdict cannot be given, the
    exception comes out.  Either way one request has gone out and
    nothing in the store has changed. *)
Theorem watched_count_refused_changes_nothing (w : world) (a : addr)
    (sc : BangumiSubjectCollection) (n : Z) (r : response)
    (rest : list response) :
  _logged_in w = true ->
  sub_colls w !! a = Some sc ->
  sc_c_status sc <> Some 1%Z ->
  sc_n_watched_eps sc = Some n ->
  inbox w = r :: rest ->
  let w1 := with_wire rest (sent w ++ [watched_count_request w sc n]) w in
  (check_response r = Return false ->
   set_n_watched_eps a w = (Return false, w1)) /\
  (forall e, check_response r = Raise e ->
   set_n_watched_eps a w = (Raise e, w1)).
Proof.
  intros Hin Hsc Hn1 Hn Hbox w1.
  rewrite (set_n_watched_eps_until_verdict w a sc n r rest Hin Hsc Hn1 Hn Hbox).
  fold w1. split.
  - intros ->. reflexivity.
  - intros e ->. reflexivity.
Qed.

Lemma with_ep_colls_same (w : world) : with_ep_colls (ep_colls w) w = w.
Proof. now destruct w. Qed.

(** Building new episode collections: the addresses are new, distinct,
    and hold what was built; nothing that was stored moves. *)
Lemma alloc_eps_spec (l : list BangumiEpisodeCollection) :
  forall w, exists eas m',
    alloc_eps l w = (Return eas, with_ep_colls m' w) /\
    List.NoDup eas /\
    (forall e, In e eas -> ep_colls w !! e = None) /\
    Forall2 (fun e ec => m' !! e = Some ec) eas l /\
    (forall e, ~ In e eas -> m' !! e = ep_colls w !! e).
Proof.
  induction l as [|ec l IH]; intros w.
  - exists [], (ep_colls w). repeat split.
    + cbn. unfold ret. now rewrite with_ep_colls_same.
    + constructor.
    + intros e [].
    + constructor.
  - set (a := fresh (dom (ep_colls w))).
    assert (ep_colls w !! a = None) as Hfresh.
    { apply not_elem_of_dom, is_fresh. }
    set (w1 := with_ep_colls (<[a := ec]> (ep_colls w)) w).
    destruct (IH w1) as (eas & m' & Hrun & Hnd & Hnew & Hall & Hframe).
    assert (~ In a eas) as Hna.
    { intros Hin. specialize (Hnew a Hin). cbn in Hnew.
      rewrite lookup_insert_eq in Hnew. discriminate. }
    exists (a :: eas), m'. repeat split.
    + cbn [alloc_eps].
      assert (alloc_ep ec w = (Return a, w1)) as Hone by reflexivity.
      rewrite (bind_return _ _ _ _ _ Hone).
      rewrite (bind_return _ _ _ _ _ Hrun). reflexivity.
    + constructor; assumption.
    + intros e [<-|He]; [exact Hfresh|].
      specialize (Hnew e He). cbn in Hnew.
      rewrite lookup_insert_ne in Hnew; [exact Hnew|].
      intros ->. contradiction.
    + constructor; [|exact Hall].
      rewrite (Hframe a Hna). cbn. apply lookup_insert_eq.
    + intros e He. rewrite Hframe.
      * cbn. apply lookup_insert_ne. intros ->. apply He. now left.
      * intros Hin. apply He. now right.
Qed.

(** The closing loop of [set_n_watched_eps]. *)
Lemma link_all (a : addr) (sc : BangumiSubjectCollection) (l : list addr) :
  forall w,
    sub_colls w !! a = Some sc ->
    (forall e, In e l -> is_Some (ep_colls w !! e)) ->
    exists m',
      for_each l (fun e =>
        let* sc' := deref_sub a in
        let* _ := update_ep e (ec_with_session (sc_session sc')) in
        update_ep e (ec_with_sub_collection (Some a))) w =
        (Return tt, with_ep_colls m' w) /\
      (forall e, In e l -> exists ec,
          ep_colls w !! e = Some ec /\ m' !! e = Some (linked_to a sc ec)) /\
      (forall e, ~ In e l -> m' !! e = ep_colls w !! e).
Proof.
  induction l as [|x l IH]; intros w Hsc Hall.
  - exists (ep_colls w). repeat split.
    + cbn. unfold ret. now rewrite with_ep_colls_same.
    + intros e [].
  - destruct (Hall x) as [ecx Hx]; [now left|].
    set (w1 := with_ep_colls (<[x := linked_to a sc ecx]> (ep_colls w)) w).
    destruct (IH w1) as (m' & Hrun & Hin & Hout).
    { exact Hsc. }
    { intros e He. cbn. destruct (Nat.eq_dec e x) as [->|Hne].
      - rewrite lookup_insert_eq. eauto.
      - rewrite lookup_insert_ne by congruence. apply Hall. now right. }
    exists m'. repeat split.
    + cbn [for_each].
      assert ((let* sc' := deref_sub a in
               let* _ := update_ep x (ec_with_session (sc_session sc')) in
               update_ep x (ec_with_sub_collection (Some a))) w =
              (Return tt, w1)) as Hstep.
      { rewrite (bind_return _ _ _ _ _ (deref_sub_some _ _ _ Hsc)).
        rewrite (bind_return _ _ _ _ _ (update_ep_some _ _ _ _ Hx)).
        erewrite update_ep_some; [|cbn; apply lookup_insert_eq].
        unfold w1, linked_to. cbn. rewrite insert_insert_eq. reflexivity. }
      rewrite (bind_return _ _ _ _ _ Hstep). rewrite Hrun. reflexivity.
    + intros e He. destruct (in_dec Nat.eq_dec e l) as [Hl|Hl].
      * destruct (Hin e Hl) as (ec1 & H1 & H2). cbn in H1.
        destruct (Nat.eq_dec e x) as [->|Hne].
        -- rewrite lookup_insert_eq in H1. injection H1 as <-.
           exists ecx. split; [exact Hx|]. rewrite H2. reflexivity.
        -- rewrite lookup_insert_ne in H1 by congruence.
           exists ec1. split; assumption.
      * destruct He as [<-|He]; [|contradiction].
        exists ecx. split; [exact Hx|].
        rewrite (Hout x Hl). cbn. apply lookup_insert_eq.
    + intros e He. rewrite Hout.
      * cbn. apply lookup_insert_ne. intros ->. apply He. now left.
      * intros Hl. apply He. now right.
Qed.

Lemma Forall2_impl_in {A B} (P Q : A -> B -> Prop) (l1 : list A) (l2 : list B) :
  Forall2 P l1 l2 ->
  (forall x y, In x l1 -> P x y -> Q x y) ->
  Forall2 Q l1 l2.
Proof.
  induction 1 as [|x y l1 l2 Hxy Hall IH]; intros Himp; constructor.
  - apply Himp; [now left | exact Hxy].
  - apply IH. intros x' y' Hx'. apply Himp. now right.
Qed.

(** X20.  When the service accepts the posted count and then serves the
    subject's episode page, [set_n_watched_eps] returns True after
    these two requests and replaces the parent's sequence by episode
    collections built anew from that page: they sit at addresses that
    held nothing before, all different, each with the session of the
    parent and referring back to it.  Every episode collection that was
    stored before is still stored, unchanged, and is no longer in the
    parent's sequence. *)
Theorem watched_count_accepted_rebuilds_the_sequence (w : world) (a : addr)
    (sc : BangumiSubjectCollection) (n : Z) (r r2 : response)
    (rest : list response) (ecs : list BangumiEpisodeCollection) :
  _logged_in w = true ->
  sub_colls w !! a = Some sc ->
  sc_c_status sc <> Some 1%Z ->
  sc_n_watched_eps sc = Some n ->
  inbox w = r :: r2 :: rest ->
  check_response r = Return true ->
  ep_colls_for_sub_from_html (sc_subject sc) (html_of r2) = Return ecs ->
  exists eas w',
    set_n_watched_eps a w = (Return true, w') /\
    sent w' = sent w ++ [watched_count_request w sc n; eps_page_request w sc] /\
    inbox w' = rest /\
    sub_colls w' = <[a := sc_with_ep_collections eas sc]> (sub_colls w) /\
    List.NoDup eas /\
    (forall e, In e eas -> ep_colls w !! e = None) /\
    Forall2 (fun e ec => ep_colls w' !! e = Some (linked_to a sc ec)) eas ecs /\
    (forall e, is_Some (ep_colls w !! e) ->
               ep_colls w' !! e = ep_colls w !! e /\ ~ In e eas).
Proof.
  intros Hin Hsc Hn1 Hn Hbox Hcheck Hfac.
  rewrite (set_n_watched_eps_until_verdict w a sc n r (r2 :: rest)
             Hin Hsc Hn1 Hn Hbox).
  rewrite Hcheck. unfold lift at 1. unfold bind at 1. cbv zeta.
  set (w1 := with_wire (r2 :: rest) (sent w ++ [watched_count_request w sc n]) w).
  set (w2 := with_wire rest
               (sent w ++ [watched_count_request w sc n; eps_page_request w sc])
               w).
  assert (_get_html_for_subject_eps (sub_id_ (sc_subject sc)) w1 =
          (Return (html_of r2), w2)) as Hfetch.
  { unfold _get_html_for_subject_eps, gets. unfold bind at 1.
    erewrite bind_return;
      [|apply (_get_logged_in w1 _ r2 rest); [exact Hin | reflexivity]].
    unfold w1, w2, eps_page_request. cbn.
    rewrite <- app_assoc. reflexivity. }
  rewrite (bind_return _ _ _ _ _ Hfetch).
  unfold lift at 1. unfold bind at 1. rewrite Hfac.
  destruct (alloc_eps_spec ecs w2)
    as (eas & m' & Hrun & Hnd & Hnew & Hbuilt & Hframe).
  rewrite (bind_return _ _ _ _ _ Hrun).
  set (w3 := with_ep_colls m' w2).
  erewrite bind_return; [|apply (update_sub_some w3 a sc); exact Hsc].
  set (scx := sc_with_ep_collections eas sc).
  set (w4 := with_sub_colls (<[a := scx]> (sub_colls w3)) w3).
  destruct (link_all a scx eas w4) as (m2 & Hloop & Hlinked & Hkept).
  { cbn. apply lookup_insert_eq. }
  { intros e He. cbn.
    assert (exists ec, m' !! e = Some ec) as [ec Hec]; [|eauto].
    clear - Hbuilt He. induction Hbuilt as [|x y l1 l2 Hxy Hall IH];
      [destruct He|].
    destruct He as [<-|He]; [eauto | now apply IH]. }
  rewrite (bind_return _ _ _ _ _ Hloop).
  exists eas, (with_ep_colls m2 w4). repeat split; try assumption.
  - apply (Forall2_impl_in _ _ _ _ Hbuilt). intros e ec He Hec.
    destruct (Hlinked e He) as (ec0 & H0 & H1). cbn in H0.
    rewrite Hec in H0. injection H0 as <-. exact H1.
  - cbn. assert (~ In e eas) as Hne.
    { intros He. pose proof (Hnew e He) as Hnone. cbn in Hnone.
      rewrite Hnone in H. now destruct H. }
    rewrite (Hkept e Hne). cbn. apply (Hframe e Hne).
  - intros He. pose proof (Hnew e He) as Hnone. cbn in Hnone.
    rewrite Hnone in H. now destruct H.
Qed.

(** ** What the reading methods hand out *)

Lemma bind_inv {A B} (m : M A) (k : A -> M B) (w w' : world) (b : B) :
  bind m k w = (Return b, w') ->
  exists a w1, m w = (Return a, w1) /\ k a w1 = (Return b, w').
Proof.
  unfold bind. destruct (m w) as [[a|e] w1]; [eauto | discriminate].
Qed.

Lemma attach_session_sub (x a : addr) (w w' : world) :
  (let* self := gets session_id in
   let* _ := update_sub x (sc_with_session (Some self)) in
   ret x) w = (Return a, w') ->
  exists sc, sub_colls w' !! a = Some sc /\
             sc_session sc = Some (session_id w').
Proof.
  unfold gets, update_sub, deref_sub, modify, ret, bind.
  destruct (sub_colls w !! x) as [sc|]; [|discriminate].
  intros H. injection H as <- <-. cbn.
  rewrite lookup_insert_eq. eauto.
Qed.

Lemma attach_session_ep (x a : addr) (w w' : world) :
  (let* self := gets session_id in
   let* _ := update_ep x (ec_with_session (Some self)) in
   ret x) w = (Return a, w') ->
  exists ec, ep_colls w' !! a = Some ec /\
             ec_session ec = Some (session_id w').
Proof.
  unfold gets, update_ep, deref_ep, modify, ret, bind.
  destruct (ep_colls w !! x) as [ec|]; [|discriminate].
  intros H. injection H as <- <-. cbn.
  rewrite lookup_insert_eq. eauto.
Qed.

(** X21.  Whenever one of the four methods that fetch a collection
    returns, the collection it hands out is in the store and its
    [session] is the session that fetched it. *)
Theorem fetched_collection_knows_its_session (w w' : world) (a : addr) :
  (forall sub_id,
     get_sub_collection sub_id w = (Return a, w') ->
     exists sc, sub_colls w' !! a = Some sc /\
                sc_session sc = Some (session_id w')) /\
  (forall subject,
     get_sub_collection_with_subject subject w = (Return a, w') ->
     exists sc, sub_colls w' !! a = Some sc /\
                sc_session sc = Some (session_id w')) /\
  (forall ep_id,
     get_ep_collection ep_id w = (Return a, w') ->
     exists ec, ep_colls w' !! a = Some ec /\
                ec_session ec = Some (session_id w')) /\
  (forall episode,
     get_ep_collection_with_episode episode w = (Return a, w') ->
     exists ec, ep_colls w' !! a = Some ec /\
                ec_session ec = Some (session_id w')).
Proof.
  repeat split.
  - intros sub_id H. unfold get_sub_collection in H.
    apply bind_inv in H as (v1 & u1 & _ & H).
    apply bind_inv in H as (v2 & u2 & _ & H).
    apply bind_inv in H as (v3 & u3 & _ & H).
    apply bind_inv in H as (x & w1 & _ & H).
    now apply (attach_session_sub x a w1 w').
  - intros subject H. unfold get_sub_collection_with_subject in H.
    apply bind_inv in H as (v1 & u1 & _ & H).
    apply bind_inv in H as (v2 & u2 & _ & H).
    apply bind_inv in H as (v3 & u3 & _ & H).
    apply bind_inv in H as (x & w1 & _ & H).
    now apply (attach_session_sub x a w1 w').
  - intros ep_id H. unfold get_ep_collection in H.
    apply bind_inv in H as (v1 & u1 & _ & H).
    apply bind_inv in H as (v2 & u2 & _ & H).
    apply bind_inv in H as (v3 & u3 & _ & H).
    apply bind_inv in H as (x & w1 & _ & H).
    now apply (attach_session_ep x a w1 w').
  - intros episode H. unfold get_ep_collection_with_episode in H.
    apply bind_inv in H as (v1 & u1 & _ & H).
    apply bind_inv in H as (v2 & u2 & _ & H).
    apply bind_inv in H as (v3 & u3 & _ & H).
    apply bind_inv in H as (x & w1 & _ & H).
    now apply (attach_session_ep x a w1 w').
Qed.

(** X22.  When the batch write is acknowledged but no count can be read
    off the main page fetched next, the exception of the extractor
    comes out of the batch method after both requests, and nothing has
    been marked locally: the store is as it was, although the service
    has accepted the write. *)
Theorem acknowledged_batch_with_unreadable_count (w : world) (l : list addr)
    (s : addr) (sc : BangumiSubjectCollection) (r r2 : response)
    (rest : list response) (e : exn) :
  _logged_in w = true -> l <> [] -> belong_to w s l ->
  sub_colls w !! s = Some sc ->
  inbox w = r :: r2 :: rest ->
  acknowledged r = true ->
  get_n_watched_eps_from_soup (BeautifulSoup (html_of r2)) = Raise e ->
  _set_watched_eps_in_sub l w =
  (Raise e,
   with_wire rest
     (sent w ++ [batch_request w (List.last (ep_ids_of w l) EmptyString) l;
                 main_page_request w sc]) w).
Proof.
  intros Hin Hne Hb Hsc Hbox Hack He.
  rewrite (batch_until_answer w l s r (r2 :: rest) Hin Hne Hb Hbox).
  unfold after_batch_answer. rewrite Hack.
  set (w1 := with_wire (r2 :: rest) _ w).
  rewrite (bind_return _ _ _ _ _ (deref_sub_some w1 s sc Hsc)).
  unfold _get_html_for_subject_main, gets. unfold bind at 2.
  erewrite bind_return.
  2:{ erewrite bind_return;
        [|apply (_get_logged_in w1 _ r2 rest); [exact Hin | reflexivity]].
      reflexivity. }
  unfold lift at 1. unfold bind at 1. rewrite He.
  unfold w1, main_page_request. cbn. rewrite <- app_assoc. reflexivity.
Qed.

(** ** The titles offered for completion *)

Lemma add_names_spec (names : list string) :
  forall (titles : gset string) (x : string),
    x ∈ add_names names titles <-> x ∈ titles \/ In x names.
Proof.
  induction names as [|n names IH]; intros titles x; cbn.
  - tauto.
  - unfold add_names in *. cbn. rewrite IH.
    destruct (decide (n ∈ titles)) as [Hn|Hn].
    + split; [tauto|]. intros [H|[<-|H]]; tauto.
    + rewrite elem_of_union, elem_of_singleton.
      split; [intros [[->|H]|H]; tauto | intros [H|[<-|H]]; tauto].
Qed.

Lemma _update_titles_spec aliases (watching : list BangumiDummySubjectCollection) :
  forall (titles : gset string) (x : string),
    x ∈ _update_titles aliases watching titles <->
    x ∈ titles \/ exists coll, In coll watching /\ In x (names_of aliases coll).
Proof.
  induction watching as [|c watching IH]; intros titles x.
  - cbn. split; [tauto | intros [H|(coll & [] & _)]; exact H].
  - unfold _update_titles in *. cbn [fold_left]. rewrite IH, add_names_spec.
    fold (names_of aliases c). split.
    + intros [[H|H]|(coll & Hc & Hx)]; [tauto | right | right].
      * exists c. split; [now left | exact H].
      * exists coll. split; [now right | exact Hx].
    + intros [H|(coll & [<-|Hc] & Hx)]; [tauto | tauto | right].
      exists coll. split; assumption.
Qed.

(** X23.  After [_update_titles] the set of titles holds exactly what
    it held before together with the title, the localised title and
    the aliases of every watched subject; running it again over the
    same subjects changes nothing. *)
Theorem update_titles_adds_all_names aliases
    (watching : list BangumiDummySubjectCollection) (titles : gset string) :
  (forall x,
     x ∈ _update_titles aliases watching titles <->
     x ∈ titles \/
     exists coll, In coll watching /\ In x (names_of aliases coll)) /\
  _update_titles aliases watching (_update_titles aliases watching titles) =
  _update_titles aliases watching titles.
Proof.
  split; [apply _update_titles_spec|].
  apply set_eq. intros x. rewrite !_update_titles_spec. tauto.
Qed.

End Properties.

(** * Runs against the simulated remote *)

Import Sim.

Lemma sim_belong (w : world) (l : list addr) :
  forallb (fun e => match ep_colls w !! e with
                    | Some ec => is_same (ec_sub_collection ec) (Some 0)
                    | None => false
                    end) l = true ->
  belong_to w 0 l.
Proof.
  intros H e He. rewrite forallb_forall in H. specialize (H e He).
  destruct (ep_colls w !! e) as [ec|]; [|discriminate].
  exists ec. split; [reflexivity|].
  destruct (ec_sub_collection ec) as [s|]; [|discriminate].
  cbn in H. apply Nat.eqb_eq in H. now subst.
Qed.



(** Episode collection 3 of [w_batch] asks for watched-up-to: the batch
    is 1, 2, 3 and the POST is addressed by episode 103. *)
Lemma watched_up_to_batch_is_inclusive_prefix_witness :
  exists pre post,
    [1; 2; 3; 4] = pre ++ 3 :: post /\ ~ In 3 pre /\
    get_ep_colls_up_to_this 3 w_batch = (Return (pre ++ [3]), w_batch) /\
    exists more,
      sent (snd (set_ep_collection (EpColl 3) w_batch)) =
      sent w_batch ++
      batch_request w_batch "103" (pre ++ [3]) :: more.
Proof.
  apply (watched_up_to_batch_is_inclusive_prefix w_batch 3 0
           (an_ep_coll "103" (Some "watched_up_to") (Some 0)) sc_watching).
  - simpl. tauto.
  - reflexivity.
  - vm_compute. reflexivity.
  - reflexivity.
  - reflexivity.
  - vm_compute. reflexivity.
  - simpl. tauto.
  - apply sim_belong. vm_compute. reflexivity.
Defined.

(** C3.  Episode collection 9 of [w_stray] carries the directive
    [watched_up_to] and names subject collection 0 as its parent, but is
    not in the sequence 1, 2, 3, 4 of that parent.  The submission does
    not fail: it sends a batch write for all four episodes of the
    parent, addressed by the last of them, returns True and marks the
    four watched, while the target keeps its directive. *)
Theorem stray_target_submits_the_whole_sequence :
  ~ In 9 [1; 2; 3; 4] /\
  get_ep_colls_up_to_this 9 w_stray = (Return [1; 2; 3; 4], w_stray) /\
  fst (set_ep_collection (EpColl 9) w_stray) = Return true /\
  sent (snd (set_ep_collection (EpColl 9) w_stray)) =
    [batch_request w_stray "104" [1; 2; 3; 4];
     main_page_request w_stray sc_watching] /\
  ec_c_status <$> ep_colls (snd (set_ep_collection (EpColl 9) w_stray)) !! 4 =
    Some (Some "watched") /\
  ec_c_status <$> ep_colls (snd (set_ep_collection (EpColl 9) w_stray)) !! 9 =
    Some (Some "watched_up_to").
Proof.
  split.
  - simpl. intuition discriminate.
  - repeat split; vm_compute; reflexivity.
Qed.



(** C5, as stated, fails at 0: it is outside 1..5, and the subject
    collection of [w_zero] that carries it is refused with AttributeError,
    not ValueError. *)
Lemma zero_status_is_not_a_ValueError :
  ~ out_of_range_raises_ValueError w_zero 0.
Proof.
  intros H.
  specialize (H (the_sub_coll (Some 0%Z) (Some 2%Z)) 0%Z).
  assert (fst (set_sub_collection (SubColl 0) w_zero) = Raise AttributeError)
    as Hrun by (vm_compute; reflexivity).
  rewrite Hrun in H. discriminate H.
  - vm_compute. reflexivity.
  - reflexivity.
  - simpl. intuition discriminate.
Qed.

Lemma c_status_checked_before_the_wire_witness :
  set_sub_collection (SubColl 0) w_zero = (Raise AttributeError, w_zero) /\
  set_ep_collection (EpColl 9) w_zero = (Raise ValueError, w_zero).
Proof.
  destruct (c_status_checked_before_the_wire w_zero 0) as [Hsub _].
  destruct (c_status_checked_before_the_wire w_zero 9) as [_ Hep].
  split.
  - apply (Hsub (the_sub_coll (Some 0%Z) (Some 2%Z))).
    + vm_compute. reflexivity.
    + reflexivity.
  - apply (Hep (an_ep_coll "109" (Some "bogus") (Some 0))) with (c := "bogus").
    + vm_compute. reflexivity.
    + reflexivity.
    + discriminate.
    + simpl. intuition discriminate.
Defined.

Lemma watched_up_to_needs_parent_witness :
  set_ep_collection (EpColl 8) w_batch = (Raise AttributeError, w_batch) /\
  set_collection (EpColl 8) w_batch = (Raise AttributeError, w_batch).
Proof.
  apply (watched_up_to_needs_parent w_batch 8
           (an_ep_coll "108" (Some "watched_up_to") None)).
  - simpl. tauto.
  - vm_compute. reflexivity.
  - reflexivity.
  - reflexivity.
Defined.

Lemma not_logged_in_blocks_every_operation_witness :
  logout w_out = (Raise NotLoggedInError, w_out) /\
  run_op (OpGetSubject "253") w_out = (Raise NotLoggedInError, w_out) /\
  run_ops [OpSetCollection (SubColl 0); OpRemoveCollection (EpColl 4);
           OpLogout; OpGetDummyCollections "anime" 3 None] w_out = w_out.
Proof.
  destruct (not_logged_in_blocks_every_operation w_out)
    as (_ & _ & Hlogout & Hread & _ & Hseq).
  - reflexivity.
  - split; [exact Hlogout|]. split.
    + apply Hread. reflexivity.
    + apply Hseq.
Defined.

(** C8.  The removal request of a logged-in session is answered with
    status 200 by a page that has no id badge.  [check_response], which
    catches TypeError only, lets the AttributeError of the extractor
    through, so [remove_collection] raises after the request has gone
    out and before it clears anything: the subject collection still has
    status 3, the episode collection is still in the queue, and no
    boolean comes back. *)
Theorem remove_raises_on_a_page_without_badge :
  status_code plain_page = 200%Z /\
  find_class (BeautifulSoup (text plain_page)) "idBadgerNeue" = None /\
  check_response plain_page = Raise AttributeError /\
  remove_collection (SubColl 0) (w_with [plain_page]) =
    (Raise AttributeError,
     with_wire []
       [mkRequest GET "http://bgm.tv/subject/253/remove?gh=tok" []]
       (w_with [plain_page])) /\
  sc_c_status <$>
    sub_colls (snd (remove_collection (SubColl 0) (w_with [plain_page]))) !! 0 =
    Some (Some 3%Z) /\
  remove_collection (EpColl 4) (w_with [plain_page]) =
    (Raise AttributeError,
     with_wire []
       [mkRequest GET "http://bgm.tv/subject/ep/104/status/remove?gh=tok" []]
       (w_with [plain_page])) /\
  ec_c_status <$>
    ep_colls (snd (remove_collection (EpColl 4) (w_with [plain_page]))) !! 4 =
    Some (Some "queue").
Proof.
  repeat split; vm_compute; reflexivity.
Qed.

(** Three runs of the listing of user 42's watched anime.  Two pages
    served: the entries of page 1, then those of page 2, after requests
    for the listing, for its page 1 and for its page 2, in that order.
    Three pages of which the second is refused, for user 9: the call
    raises, page 3 is never asked for and its answer stays unread.  Two
    pages announced by an answer of status 500: that status is not
    looked at, and the call returns as in the first run. *)
Lemma listing_concatenates_pages_1_to_n_witness :
  get_dummy_collections "anime" 3 None w_list =
    (Return [mkDummy (a_subject "11") 3 (Some 7);
             mkDummy (a_subject "12") 3 (Some 7);
             mkDummy (a_subject "13") 3 (Some 7)],
     with_wire []
       [mkRequest GET "http://bgm.tv/anime/list/42/do" [];
        mkRequest GET "http://bgm.tv/anime/list/42/do?page=1" [];
        mkRequest GET "http://bgm.tv/anime/list/42/do?page=2" []] w_list) /\
  get_dummy_collections "book" 5 (Some "9") w_list_stop =
    (Raise RequestFailedError,
     with_wire [reply 200 "browserItemList=14"]
       [mkRequest GET "http://bgm.tv/book/list/9/dropped" [];
        mkRequest GET "http://bgm.tv/book/list/9/dropped?page=1" [];
        mkRequest GET "http://bgm.tv/book/list/9/dropped?page=2" []]
       w_list_stop) /\
  fst (get_dummy_collections "anime" 3 None w_list_unchecked) =
    Return [mkDummy (a_subject "11") 3 (Some 7);
            mkDummy (a_subject "12") 3 (Some 7);
            mkDummy (a_subject "13") 3 (Some 7)].
Proof.
  split; [|split].
  - destruct (listing_concatenates_pages_1_to_n w_list "anime" 3 None
                (reply 200 "multipage=2") 2) as [Hall _].
    + reflexivity.
    + simpl. tauto.
    + lia.
    + vm_compute. reflexivity.
    + rewrite (Hall [reply 200 "browserItemList=11,12";
                     reply 200 "browserItemList=13"]
                 [[mkDummy (a_subject "11") 3 None;
                   mkDummy (a_subject "12") 3 None];
                  [mkDummy (a_subject "13") 3 None]] []).
      * reflexivity.
      * reflexivity.
      * reflexivity.
      * repeat constructor; vm_compute; reflexivity.
  - destruct (listing_concatenates_pages_1_to_n w_list_stop "book" 5
                (Some "9") (reply 200 "multipage=3") 3) as [_ Hcut].
    + reflexivity.
    + simpl. tauto.
    + lia.
    + vm_compute. reflexivity.
    + rewrite (Hcut [reply 200 "browserItemList=11,12"]
                 [[mkDummy (a_subject "11") 5 None;
                   mkDummy (a_subject "12") 5 None]]
                 (reply 404 "browserItemList=13")
                 [reply 200 "browserItemList=14"]).
      * reflexivity.
      * reflexivity.
      * simpl. lia.
      * repeat constructor; vm_compute; reflexivity.
      * discriminate.
  - destruct (listing_concatenates_pages_1_to_n w_list_unchecked "anime" 3
                None (reply 500 "multipage=2") 2) as [Hall _].
    + reflexivity.
    + simpl. tauto.
    + lia.
    + vm_compute. reflexivity.
    + rewrite (Hall [reply 200 "browserItemList=11,12";
                     reply 200 "browserItemList=13"]
                 [[mkDummy (a_subject "11") 3 None;
                   mkDummy (a_subject "12") 3 None];
                  [mkDummy (a_subject "13") 3 None]] []).
      * reflexivity.
      * reflexivity.
      * reflexivity.
      * repeat constructor; vm_compute; reflexivity.
Defined.

(** A wish without a count is refused by the first rule, a watched
    subject without a count by the second. *)
Lemma watched_count_checked_before_the_wire_witness :
  set_n_watched_eps 0 w_wish = (Raise ValueError, w_wish) /\
  set_n_watched_eps 0 w_no_count = (Raise AttributeError, w_no_count).
Proof.
  split.
  - destruct (watched_count_checked_before_the_wire w_wish 0
                (the_sub_coll (Some 1%Z) None)) as [Hwish _].
    + vm_compute. reflexivity.
    + apply Hwish. reflexivity.
  - destruct (watched_count_checked_before_the_wire w_no_count 0
                (the_sub_coll (Some 3%Z) None)) as [_ Hnone].
    + vm_compute. reflexivity.
    + apply Hnone; [discriminate | reflexivity].
Defined.

(** * Further runs against the simulated remote *)

Lemma user_id_is_last_path_segment_witness :
  exists badge avatar href pre,
    find_class (BeautifulSoup "idBadgerNeue=/user/42") "idBadgerNeue" = Some badge /\
    find_class badge "avatar" = Some avatar /\
    attr avatar "href" = Some href /\
    href = pre +:+ "42" /\
    (pre = EmptyString \/ exists p, pre = p +:+ "/") /\
    occurs "/" "42" = false.
Proof.
  apply (user_id_is_last_path_segment (BeautifulSoup "idBadgerNeue=/user/42")).
  vm_compute. reflexivity.
Defined.

(** A page that is not served with status 200, a page with the id
    badge, a page without it. *)
Lemma check_response_verdicts_witness :
  check_response (reply 500 "gone") = Return false /\
  check_response badge_page = Return true /\
  check_response plain_page = Raise AttributeError.
Proof.
  destruct (check_response_verdicts (reply 500 "gone")) as [H500 _].
  destruct (check_response_verdicts badge_page) as [_ Hbadge].
  destruct (check_response_verdicts plain_page) as [_ Hplain].
  destruct (Hbadge eq_refl) as (Hyes & _ & _).
  destruct (Hplain eq_refl) as (_ & _ & Hno).
  split; [apply H500; discriminate|]. split.
  - apply (Hyes "42"). vm_compute. reflexivity.
  - apply Hno. vm_compute. reflexivity.
Defined.

Lemma n_pages_is_the_largest_page_number_witness :
  exists mp,
    find_id (BeautifulSoup "multipage=3") "multipage" = Some mp /\
    ((find_all_class mp "p" = [] /\ 3 = 1) \/
     (exists cur cur_page numbers,
        find_class mp "p_cur" = Some cur /\
        py_int (node_text cur) = Some cur_page /\
        Forall2 (fun p k => link_page p = Return k)
                (find_all_class mp "p") numbers /\
        In 3 (numbers ++ [cur_page]) /\
        forall k, In k (numbers ++ [cur_page]) -> k <= 3))%Z.
Proof.
  apply (n_pages_is_the_largest_page_number "multipage=3" 3).
  vm_compute. reflexivity.
Defined.

Lemma listing_without_pager_raises_witness :
  fst (get_dummy_collections "anime" 3 None (w_with [plain_page])) =
  Raise AttributeError.
Proof.
  rewrite (listing_without_pager_raises (w_with [plain_page]) "anime" "do" 3
             None plain_page []).
  - reflexivity.
  - reflexivity.
  - simpl. tauto.
  - reflexivity.
  - reflexivity.
  - vm_compute. reflexivity.
Defined.

Lemma listing_arguments_checked_first_witness :
  get_dummy_collections "music" 3 None w_out = (Raise ValueError, w_out) /\
  get_dummy_collections "anime" 6 None w_out = (Raise ValueError, w_out).
Proof.
  split.
  - apply listing_arguments_checked_first. left.
    simpl. intuition discriminate.
  - apply listing_arguments_checked_first. right. right. lia.
Defined.

Lemma listing_of_no_page_is_empty_witness :
  fst (get_dummy_collections "anime" 3 None (w_with [reply 200 "multipage=0"])) =
  Return [].
Proof.
  rewrite (listing_of_no_page_is_empty (w_with [reply 200 "multipage=0"])
             "anime" "do" 3 None (reply 200 "multipage=0") [] 0).
  - reflexivity.
  - reflexivity.
  - simpl. tauto.
  - reflexivity.
  - reflexivity.
  - vm_compute. reflexivity.
  - lia.
Defined.

(** The answer to the removal is a page without the id badge: the
    exception comes out and the status is still 3. *)
Lemma remove_keeps_status_when_verdict_raises_witness :
  fst (remove_collection (SubColl 0) (w_with [plain_page])) =
    Raise AttributeError /\
  sc_c_status <$>
    sub_colls (snd (remove_collection (SubColl 0) (w_with [plain_page]))) !! 0 =
  Some (Some 3%Z).
Proof.
  destruct (remove_keeps_status_when_verdict_raises (w_with [plain_page]) 0
              plain_page [] AttributeError) as [Hsub _].
  - reflexivity.
  - reflexivity.
  - vm_compute. reflexivity.
  - rewrite (Hsub sc_watching); [|vm_compute; reflexivity].
    split; [reflexivity|]. vm_compute. reflexivity.
Defined.

Lemma subject_submission_is_one_form_witness :
  set_sub_collection (SubColl 0) (w_with [badge_page]) =
  (Return true,
   with_wire []
     [interest_request (w_with [badge_page]) sc_watching 3]
     (w_with [badge_page])).
Proof.
  rewrite (subject_submission_is_one_form (w_with [badge_page]) 0 sc_watching 3
             badge_page []).
  - reflexivity.
  - reflexivity.
  - vm_compute. reflexivity.
  - reflexivity.
  - simpl. tauto.
  - discriminate.
  - reflexivity.
Defined.

(** Episode collection 8 has no parent, episode collection 1 has
    parent 0: together they are refused. *)
Lemma batch_refused_before_the_wire_witness :
  _set_watched_eps_in_sub [1; 8] w_batch = (Raise ValueError, w_batch).
Proof.
  destruct (batch_refused_before_the_wire w_batch) as [_ Hmixed].
  apply (Hmixed 1 [8] (an_ep_coll "101" (Some "watched") (Some 0))).
  - vm_compute. reflexivity.
  - intros e [<-|[]]. vm_compute. eauto.
  - exists 8, (an_ep_coll "108" (Some "watched_up_to") None).
    split; [now left|]. split; [vm_compute; reflexivity | reflexivity].
Defined.

Lemma single_episode_write_step_by_step_witness :
  set_ep_collection (EpColl 4) w_single =
  (Return false,
   with_sub_colls
     (<[0 := sc_with_n_watched_eps (Some 7%Z) sc_watching]> (sub_colls w_single))
     (with_wire []
        [status_request w_single (an_ep_coll "104" (Some "queue") (Some 0)) "queue"]
        w_single)).
Proof.
  destruct (single_episode_write_step_by_step w_single 4
              (an_ep_coll "104" (Some "queue") (Some 0)) "queue"
              (reply 500 "watchedeps=7") []) as (_ & Hcount & _).
  - reflexivity.
  - vm_compute. reflexivity.
  - reflexivity.
  - discriminate.
  - simpl. tauto.
  - discriminate.
  - reflexivity.
  - rewrite (Hcount 0 sc_watching 7%Z).
    + reflexivity.
    + reflexivity.
    + vm_compute. reflexivity.
    + vm_compute. reflexivity.
Defined.

Lemma logout_is_single_use_witness :
  fst (logout (w_with [plain_page])) = Return tt /\
  logout (snd (logout (w_with [plain_page]))) =
  (Raise NotLoggedInError, snd (logout (w_with [plain_page]))).
Proof.
  destruct (logout_is_single_use (w_with [plain_page]))
    as (Hfirst & _ & Hsecond & _).
  split; [|exact Hsecond].
  rewrite (Hfirst plain_page []); reflexivity.
Defined.

Lemma constructor_checks_the_domain_witness :
  BangumiSession_init "me@example.org" "secret" "example.org" (blank 7 []) =
    (Raise ValueError, blank 7 []) /\
  exists more,
    sent (snd (BangumiSession_init "me@example.org" "secret" "bgm.tv"
                 (blank 7 [plain_page]))) =
    login_request "bgm.tv" "me@example.org" "secret" :: more.
Proof.
  split.
  - apply (constructor_checks_the_domain (blank 7 [])).
    simpl. intuition discriminate.
  - apply (constructor_checks_the_domain (blank 7 [plain_page])
             "me@example.org" "secret" "bgm.tv").
    simpl. tauto.
Defined.

Lemma constructor_fails_without_welcome_witness :
  fst (BangumiSession_init "me@example.org" "wrong" "bgm.tv"
         (blank 7 [plain_page])) = Raise LoginFailedError /\
  _logged_in (snd (BangumiSession_init "me@example.org" "wrong" "bgm.tv"
                     (blank 7 [plain_page]))) = false.
Proof.
  destruct (constructor_fails_without_welcome (blank 7 [plain_page])
              "me@example.org" "wrong" "bgm.tv" plain_page [])
    as [Hrun Hout].
  - simpl. tauto.
  - reflexivity.
  - vm_compute. reflexivity.
  - split; [now rewrite Hrun | exact Hout].
Defined.

Lemma constructor_logs_in_with_three_requests_witness :
  exists w',
    BangumiSession_init "me@example.org" "secret" "bgm.tv"
      (blank 7 [reply 200 welcome_back; reply 200 "gh=tok"; badge_page]) =
      (Return tt, w') /\
    _logged_in w' = true /\ _gh w' = "tok" /\ _user_id w' = "42" /\
    _base_url w' = "http://bgm.tv" /\ _email w' = "me@example.org" /\
    sent w' = [login_request "bgm.tv" "me@example.org" "secret";
               home_request "bgm.tv"; home_request "bgm.tv"] /\
    inbox w' = [] /\ sub_colls w' = ∅ /\ ep_colls w' = ∅.
Proof.
  apply (constructor_logs_in_with_three_requests
           (blank 7 [reply 200 welcome_back; reply 200 "gh=tok"; badge_page])
           "me@example.org" "secret" "bgm.tv" "tok" "42"
           (reply 200 welcome_back) (reply 200 "gh=tok") badge_page []).
  - simpl. tauto.
  - reflexivity.
  - vm_compute. reflexivity.
  - vm_compute. reflexivity.
  - vm_compute. reflexivity.
Defined.

(** After a watched-up-to submission and a removal, subject collection 0
    still wraps subject 253. *)
Lemma operations_keep_identities_witness :
  exists sc',
    sub_colls (run_ops [OpSetEpCollection (EpColl 3);
                        OpRemoveCollection (SubColl 0)] w_batch) !! 0 =
      Some sc' /\
    sc_subject sc' = a_subject "253".
Proof.
  destruct (operations_keep_identities
              [OpSetEpCollection (EpColl 3); OpRemoveCollection (SubColl 0)]
              w_batch) as [Hsub _].
  apply (Hsub 0 sc_watching). vm_compute. reflexivity.
Defined.

Lemma walk_returns_a_prefix_witness :
  exists l post,
    get_ep_colls_up_to_this 9 w_stray = (Return l, w_stray) /\
    [1; 2; 3; 4] = l ++ post /\
    (In 9 [1; 2; 3; 4] -> exists pre, l = pre ++ [9] /\ ~ In 9 pre) /\
    (~ In 9 [1; 2; 3; 4] -> l = [1; 2; 3; 4]).
Proof.
  destruct (walk_returns_a_prefix w_stray 9
              (an_ep_coll "109" (Some "watched_up_to") (Some 0)))
    as [_ Hwalk].
  - vm_compute. reflexivity.
  - apply (Hwalk 0 sc_watching).
    + reflexivity.
    + vm_compute. reflexivity.
Defined.

Lemma id_walk_stops_at_first_match_witness :
  get_ep_ids_up_to_this
    [mkEpisode "101"; mkEpisode "102"; mkEpisode "103"] (mkEpisode "777") =
  ["101"; "102"; "103"].
Proof.
  destruct (id_walk_stops_at_first_match
              [mkEpisode "101"; mkEpisode "102"; mkEpisode "103"]
              (mkEpisode "777")) as [_ Hmissing].
  apply Hmissing. simpl. intuition discriminate.
Defined.

Lemma collection_walk_agrees_with_id_walk_witness :
  map (fun e => ep_id_ (episode_of w_batch e)) (up_to_this 3 [1; 2; 3; 4]) =
  get_ep_ids_up_to_this (episodes_of w_batch [1; 2; 3; 4])
                        (episode_of w_batch 3).
Proof.
  apply (collection_walk_agrees_with_id_walk w_batch 3 [1; 2; 3; 4]).
  - simpl. tauto.
  - vm_compute.
    repeat (constructor; [simpl; intuition discriminate|]). constructor.
Defined.

Lemma watched_count_refused_changes_nothing_witness :
  set_n_watched_eps 0 (w_with [reply 500 "gone"]) =
  (Return false,
   with_wire [] [watched_count_request (w_with [reply 500 "gone"]) sc_watching 2]
     (w_with [reply 500 "gone"])).
Proof.
  destruct (watched_count_refused_changes_nothing (w_with [reply 500 "gone"]) 0
              sc_watching 2 (reply 500 "gone") []) as [Hfalse _].
  - reflexivity.
  - vm_compute. reflexivity.
  - discriminate.
  - reflexivity.
  - reflexivity.
  - apply Hfalse. vm_compute. reflexivity.
Defined.

(** The count is accepted: the parent's sequence is rebuilt from two new
    episode collections, and the four old ones are out of it. *)
Lemma watched_count_accepted_rebuilds_the_sequence_witness :
  exists eas w',
    set_n_watched_eps (co := co_building) 0 (w_with [badge_page; plain_page]) =
      (Return true, w') /\
    sub_colls w' !! 0 = Some (sc_with_ep_collections eas sc_watching) /\
    length eas = 2 /\
    ~ In 3 eas.
Proof.
  destruct (watched_count_accepted_rebuilds_the_sequence (co := co_building)
              (w_with [badge_page; plain_page]) 0 sc_watching 2
              badge_page plain_page [] two_eps)
    as (eas & w' & Hrun & _ & _ & Hsub & _ & _ & Hbuilt & Hold).
  - reflexivity.
  - vm_compute. reflexivity.
  - discriminate.
  - reflexivity.
  - reflexivity.
  - vm_compute. reflexivity.
  - reflexivity.
  - exists eas, w'. split; [exact Hrun|]. split; [|split].
    + rewrite Hsub. apply lookup_insert_eq.
    + apply Forall2_length in Hbuilt. exact Hbuilt.
    + apply (Hold 3). vm_compute. eauto.
Defined.

Lemma fetched_collection_knows_its_session_witness :
  exists sc,
    sub_colls (snd (get_sub_collection (co := co_building) "253"
                      (w_with [plain_page; plain_page]))) !! 1 = Some sc /\
    sc_session sc = Some 7.
Proof.
  destruct (fetched_collection_knows_its_session (co := co_building)
              (w_with [plain_page; plain_page])
              (snd (get_sub_collection (co := co_building) "253"
                      (w_with [plain_page; plain_page]))) 1) as [Hsub _].
  apply (Hsub "253"). vm_compute. reflexivity.
Defined.

Lemma acknowledged_batch_with_unreadable_count_witness :
  fst (_set_watched_eps_in_sub [1; 2; 3]
         (w_with [reply 200 ack_body; plain_page])) = Raise TypeError /\
  ep_colls (snd (_set_watched_eps_in_sub [1; 2; 3]
                   (w_with [reply 200 ack_body; plain_page]))) =
  ep_colls (w_with [reply 200 ack_body; plain_page]).
Proof.
  rewrite (acknowledged_batch_with_unreadable_count
             (w_with [reply 200 ack_body; plain_page]) [1; 2; 3] 0 sc_watching
             (reply 200 ack_body) plain_page [] TypeError).
  - split; reflexivity.
  - reflexivity.
  - discriminate.
  - apply sim_belong. vm_compute. reflexivity.
  - vm_compute. reflexivity.
  - reflexivity.
  - vm_compute. reflexivity.
  - vm_compute. reflexivity.
Defined.

Lemma update_titles_adds_all_names_witness :
  "K-On" ∈ _update_titles (fun _ => ["K-On"; "Keion"])
                          [mkDummy (a_subject "1610") 3 None] {["old"]} /\
  "old" ∈ _update_titles (fun _ => ["K-On"; "Keion"])
                         [mkDummy (a_subject "1610") 3 None] {["old"]}.
Proof.
  destruct (update_titles_adds_all_names (fun _ => ["K-On"; "Keion"])
              [mkDummy (a_subject "1610") 3 None] {["old"]}) as [Hmem _].
  split; apply Hmem.
  - right. exists (mkDummy (a_subject "1610") 3 None).
    split; [now left | simpl; tauto].
  - left. now apply elem_of_singleton.
Defined.
